(** * Beebotte Python client: request signing, response classification
      and the public operations, as a shallow embedding.

    The embedded module is [beebotte/__init__.py].  Python values are
    modelled by the inductive [value]; a Python [str] is modelled by the
    sequence of its UTF-8 bytes (so [str.encode()] is the identity on the
    underlying bytes).  Python floats are left out of the value universe,
    and the semantics followed is that of Python 3.  The clock and the HTTP transport are explicit in a [World] that every
    method threads through a small state-and-exception monad. *)

From Stdlib Require Import ZArith List String Ascii Bool Lia.
From Stdlib.Strings Require Import Byte.
From Stdlib Require Import DecimalString.
Import ListNotations.

Set Warnings "-register-all".

Local Open Scope string_scope.
Local Open Scope Z_scope.

(** ** A fragment of the Python runtime *)

Module Py.

(** The values that flow through the client: what [json.loads] returns
    and what callers hand over as [data], [ts], [limit], ... *)
Inductive value : Type :=
| VNone
| VBool (b : bool)
| VInt (z : Z)
| VStr (s : string)
| VList (l : list value)
| VDict (d : list (string * value)).

(** Insertion-ordered dictionaries with string keys. *)
Definition dict : Type := list (string * value).

Fixpoint dict_get {A : Type} (d : list (string * A)) (k : string) : option A :=
  match d with
  | [] => None
  | (k', v) :: d' => if String.eqb k' k then Some v else dict_get d' k
  end.

(** [d[k] = v]: replaces in place when the key exists, appends otherwise. *)
Fixpoint dict_set {A : Type} (d : list (string * A)) (k : string) (v : A)
  : list (string * A) :=
  match d with
  | [] => [(k, v)]
  | (k', v') :: d' =>
      if String.eqb k' k then (k', v) :: d' else (k', v') :: dict_set d' k v
  end.

(** Truth value testing, as used by [if x:]. *)
Definition truthy (v : value) : bool :=
  match v with
  | VNone => false
  | VBool b => b
  | VInt z => negb (z =? 0)
  | VStr s => negb (String.eqb s EmptyString)
  | VList l => match l with [] => false | _ :: _ => true end
  | VDict d => match d with [] => false | _ :: _ => true end
  end.

(** [v == n] for an integer literal [n]. *)
Definition eq_int (v : value) (n : Z) : bool :=
  match v with
  | VInt z => z =? n
  | VBool b => (if b then 1 else 0) =? n
  | _ => false
  end.

(** [str(n)] for an integer. *)
Definition str_int (z : Z) : string := NilZero.string_of_int (Z.to_int z).

(** The newline character, written [\n] in the source. *)
Definition nl : string := String (ascii_of_nat 10) EmptyString.

Definition bytes : Type := list byte.
Definition encode (s : string) : bytes := list_byte_of_string s.
Definition decode (b : bytes) : string := string_of_list_byte b.

(** Exception classes: the twelve classes the module defines, then the
    built-in ones its code can let escape.  The module's own [TypeError]
    shadows the built-in of that name, which is [BuiltinTypeError] here. *)
Inductive exn_class : Type :=
| AuthenticationError | InternalError | NotFoundError | AlreadyExistError
| NotAllowedError | UsageLimitError | PayloadLimitError | UnexpectedError
| BadRequestError | ParameterError | TypeError | BadTypeError
| KeyError | IndexError | NameError | ValueError | BuiltinTypeError
| RequestException.

(** An exception instance.  Its message is kept as the pair handed to the
    [%] operator: the template and the values substituted into it. *)
Record exn : Type := Exn {
  exn_kind : exn_class;
  exn_template : string;
  exn_args : list value
}.

Inductive result (A : Type) : Type :=
| Return (a : A)
| Raise (e : exn).
Arguments Return {A} a.
Arguments Raise {A} e.

(** The class of the exception a result raises, if it raises. *)
Definition raised {A : Type} (r : result A) : option exn_class :=
  match r with
  | Raise e => Some (exn_kind e)
  | Return _ => None
  end.

(** [fmt % args] restricted to the [%s] conversion (and the [%%] escape),
    the only ones the module uses; [args] are the operands after [str()].
    Too few operands and left-over operands raise as in Python. *)
Fixpoint format (fmt : string) (args : list string) : result string :=
  match fmt with
  | EmptyString =>
      match args with
      | [] => Return EmptyString
      | _ :: _ => Raise (Exn BuiltinTypeError
                    "not all arguments converted during string formatting" [])
      end
  | String c rest =>
      if Ascii.eqb c "%"%char then
        match rest with
        | String c' rest' =>
            if Ascii.eqb c' "s"%char then
              match args with
              | a :: args' =>
                  match format rest' args' with
                  | Return s => Return (a ++ s)
                  | Raise e => Raise e
                  end
              | [] => Raise (Exn BuiltinTypeError
                        "not enough arguments for format string" [])
              end
            else if Ascii.eqb c' "%"%char then
              match format rest' args with
              | Return s => Return (String "%"%char s)
              | Raise e => Raise e
              end
            else Raise (Exn ValueError "unsupported format character" [])
        | EmptyString => Raise (Exn ValueError "incomplete format" [])
        end
      else
        match format rest args with
        | Return s => Return (String c s)
        | Raise e => Raise e
        end
  end.

(** [v[k]] with a string key. *)
Definition getitem (v : value) (k : string) : result value :=
  match v with
  | VDict d =>
      match dict_get d k with
      | Some x => Return x
      | None => Raise (Exn KeyError "%s" [VStr k])
      end
  | VList _ =>
      Raise (Exn BuiltinTypeError "list indices must be integers or slices, not str" [])
  | VStr _ =>
      Raise (Exn BuiltinTypeError "string indices must be integers" [])
  | _ => Raise (Exn BuiltinTypeError "object is not subscriptable" [])
  end.

(** The number of bytes of the UTF-8 sequence that the byte [c] starts. *)
Definition utf8_width (c : ascii) : nat :=
  let n := nat_of_ascii c in
  if (n <? 192)%nat then 1%nat
  else if (n <? 224)%nat then 2%nat
  else if (n <? 240)%nat then 3%nat
  else 4%nat.

(** The characters of a [str], each as the UTF-8 sequence that encodes
    it. *)
Fixpoint chars (fuel : nat) (s : string) : list string :=
  match fuel with
  | O => []
  | S fuel' =>
      match s with
      | EmptyString => []
      | String c _ =>
          let k := utf8_width c in
          String.substring 0 k s
            :: chars fuel' (String.substring k (String.length s - k) s)
      end
  end.

(** [v[i]] with an integer index; negative indices count from the end.
    A [str] is indexed by character. *)
Definition getindex (v : value) (i : Z) : result value :=
  match v with
  | VList l =>
      let n := Z.of_nat (List.length l) in
      let j := if i <? 0 then i + n else i in
      if (0 <=? j) && (j <? n) then
        match nth_error l (Z.to_nat j) with
        | Some x => Return x
        | None => Raise (Exn IndexError "list index out of range" [])
        end
      else Raise (Exn IndexError "list index out of range" [])
  | VStr s =>
      let cs := chars (String.length s) s in
      let n := Z.of_nat (List.length cs) in
      let j := if i <? 0 then i + n else i in
      if (0 <=? j) && (j <? n) then
        match nth_error cs (Z.to_nat j) with
        | Some c => Return (VStr c)
        | None => Raise (Exn IndexError "string index out of range" [])
        end
      else Raise (Exn IndexError "string index out of range" [])
  | VDict _ => Raise (Exn KeyError "%s" [VInt i])
  | _ => Raise (Exn BuiltinTypeError "object is not subscriptable" [])
  end.

(** An omitted keyword argument ([None] here) takes its default. *)
Definition default {A : Type} (d : A) (o : option A) : A :=
  match o with Some a => a | None => d end.

End Py.

Import Py.

(** ** The world outside the client: clock and HTTP transport *)

Inductive http_method : Type := GET | POST.

(** What [requests.get] / [requests.post] receive. *)
Record Request : Type := {
  rq_method : http_method;
  rq_url : string;
  rq_params : option dict;          (* [params=] of a GET *)
  rq_data : option string;          (* [data=] of a POST *)
  rq_headers : list (string * string)
}.

Record Response : Type := {
  status_code : Z;
  text : string
}.

(** [clock_ms] is what [round(time.time() * 1000)] evaluates to,
    [clock_date] what [email.utils.formatdate()] returns; [respond] is the
    remote service seen through [requests] (it may raise), given the
    requests issued before; [sent] logs the requests issued so far. *)
Record World : Type := {
  clock_ms : Z;
  clock_date : string;
  respond : list Request -> Request -> result Response;
  sent : list Request
}.

(** Computations that read the clock, talk to the network and may raise. *)
Definition M (A : Type) : Type := World -> result A * World.

Definition ret {A : Type} (a : A) : M A := fun w => (Return a, w).

Definition raise {A : Type} (e : exn) : M A := fun w => (Raise e, w).

Definition bind {A B : Type} (m : M A) (k : A -> M B) : M B :=
  fun w =>
    match m w with
    | (Return a, w') => k a w'
    | (Raise e, w') => (Raise e, w')
    end.

Definition lift {A : Type} (r : result A) : M A := fun w => (r, w).

(** A computation is quiet when it leaves the world as it found it: it
    reads no response and issues no request. *)
Definition quiet {A : Type} (m : M A) : Prop := forall w, snd (m w) = w.

Declare Scope py_scope.
Delimit Scope py_scope with py.
Notation "x <- m ;; k" := (bind m (fun x => k))
  (at level 61, m at next level, right associativity) : py_scope.
Local Open Scope py_scope.

(** [round(time.time() * 1000)] *)
Definition time_ms : M Z := fun w => (Return (clock_ms w), w).

(** [utils.formatdate()] *)
Definition formatdate : M string := fun w => (Return (clock_date w), w).

Definition issue (rq : Request) : M Response :=
  fun w =>
    (respond w (sent w) rq,
     {| clock_ms := clock_ms w; clock_date := clock_date w;
        respond := respond w; sent := sent w ++ [rq] |}).

(** [requests.get(url, params=..., headers=...)] *)
Definition requests_get (url : string) (params : dict)
    (headers : list (string * string)) : M Response :=
  issue {| rq_method := GET; rq_url := url; rq_params := Some params;
           rq_data := None; rq_headers := headers |}.

(** [requests.post(url, data=..., headers=...)] *)
Definition requests_post (url : string) (data : string)
    (headers : list (string * string)) : M Response :=
  issue {| rq_method := POST; rq_url := url; rq_params := None;
           rq_data := Some data; rq_headers := headers |}.

(** ** Library functions the module imports

    Their results are taken as given: every statement below holds for any
    behaviour of these functions. *)
Class PyLib : Type := {
  (** [hmac.new(key, msg, hashlib.sha1).digest()] *)
  hmac_sha1 : bytes -> bytes -> bytes;
  (** [hashlib.md5(b).digest()] *)
  md5 : bytes -> bytes;
  (** [base64.b64encode(b)] *)
  b64encode : bytes -> bytes;
  (** [json.dumps(v, separators=(',', ':'))] *)
  json_dumps : value -> string;
  (** [json.loads(s)]; [None] stands for the decoder's [ValueError] *)
  json_loads : string -> option value;
  (** [urllib.urlencode(query)] *)
  urlencode : dict -> string
}.

(** ** Module-level names *)

Definition __publicReadEndpoint__ : string := "/vi/public/data/read".
Definition __readEndpoint__ : string := "/v1/data/read".
Definition __writeEndpoint__ : string := "/v1/data/write".
Definition __publishEndpoint__ : string := "/v1/data/publish".

(** What a global name of the module is bound to: a string constant, or
    some other object (an imported module, a class). *)
Inductive global : Type :=
| GStr (s : string)
| GObject.

(** The module's global namespace, in order of definition. *)
Definition module_globals : list (string * global) :=
  [ ("__version__", GStr "0.2.1");
    ("json", GObject); ("time", GObject); ("hmac", GObject);
    ("base64", GObject); ("hashlib", GObject); ("requests", GObject);
    ("utils", GObject); ("urllib", GObject);
    ("__publicReadEndpoint__", GStr __publicReadEndpoint__);
    ("__readEndpoint__", GStr __readEndpoint__);
    ("__writeEndpoint__", GStr __writeEndpoint__);
    ("__publishEndpoint__", GStr __publishEndpoint__);
    ("BBT", GObject); ("Resource", GObject); ("DataPoint", GObject);
    ("AuthenticationError", GObject); ("InternalError", GObject);
    ("NotFoundError", GObject); ("AlreadyExistError", GObject);
    ("NotAllowedError", GObject); ("UsageLimitError", GObject);
    ("PayloadLimitError", GObject); ("UnexpectedError", GObject);
    ("BadRequestError", GObject); ("ParameterError", GObject);
    ("TypeError", GObject); ("BadTypeError", GObject) ].

(** The built-in names the module refers to. *)
Definition builtin_names : list string :=
  [ "bytes"; "str"; "round"; "Exception"; "ImportError"; "classmethod" ].

(** Evaluating a name that is not a local variable of the running method:
    the module's globals, then the built-ins, else [NameError]. *)
Definition load_global (name : string) : M global :=
  match dict_get module_globals name with
  | Some g => ret g
  | None =>
      if existsb (String.eqb name) builtin_names then ret GObject
      else raise (Exn NameError "name '%s' is not defined" [VStr name])
  end.

(** [str(g)] of a global; only string constants are rendered. *)
Definition str_global (g : global) : string :=
  match g with
  | GStr s => s
  | GObject => "<object>"
  end.

(** [a - b] on two globals: neither strings nor modules nor classes
    support subtraction. *)
Definition sub_globals (a b : global) : M value :=
  raise (Exn BuiltinTypeError "unsupported operand type(s) for -" []).

(** ** class BBT *)

Module BBT.

Record t : Type := {
  akey : string;
  skey : string;
  hostname : string;
  port : string;
  ssl : bool
}.

(** [BBT(akey, skey, hostname = "api.beebotte.com", port = "80", ssl = False)];
    an omitted argument is [None] here and takes its default. *)
Definition __init__ (akey skey : string) (hostname port : option string)
    (ssl : option bool) : t :=
  {| akey := akey;
     skey := skey;
     hostname := default "api.beebotte.com" hostname;
     port := default "80" port;
     ssl := default false ssl |}.

Section Methods.
Context {L : PyLib}.

Definition sign (self : t) (stringToSign : string) : M string :=
  let signature := hmac_sha1 (encode (skey self)) (encode stringToSign) in
  lift (format "%s:%s" [akey self; decode (b64encode signature)]).

Definition __signRequest__ (self : t) (verb uri date c_type : string)
    (c_md5 : option string) : M string :=
  let c_md5 := default EmptyString c_md5 in
  (* the template is ["%s\n%s\n%s\n%s\n%s"] *)
  stringToSign <-
    lift (format ("%s" ++ nl ++ "%s" ++ nl ++ "%s" ++ nl ++ "%s" ++ nl ++ "%s")
                 [verb; c_md5; c_type; date; uri]) ;;
  sign self stringToSign.

Definition __processResponse__ (self : t) (response : Z * string) : M value :=
  let code := fst response in
  data <- match json_loads (snd response) with
          | Some v => ret v
          | None => raise (Exn ValueError "No JSON object could be decoded" [])
          end ;;
  if code <? 400 then ret data
  else
    error <- lift (getitem data "error") ;;
    errcode <- lift (getitem error "code") ;;
    error' <- lift (getitem data "error") ;;
    errmsg <- lift (getitem error' "message") ;;
    let generic :=
      ("Status: %s; Code %s; Message: %s", [VInt code; errcode; errmsg]) in
    if code =? 400 then
      if eq_int errcode 1101 then
        raise (Exn AuthenticationError "Status: 400; Code 1101; Message: %s" [errmsg])
      else if eq_int errcode 1401 then
        raise (Exn ParameterError "Status: 400; Code 1401; Message: %s" [errmsg])
      else if eq_int errcode 1403 then
        raise (Exn BadRequestError "Status: 400; Code 1403; Message: %s" [errmsg])
      else if eq_int errcode 1404 then
        raise (Exn TypeError "Status: 400; Code 1404; Message: %s" [errmsg])
      else if eq_int errcode 1405 then
        raise (Exn BadTypeError "Status: 400; Code 1405; Message: %s" [errmsg])
      else if eq_int errcode 1406 then
        raise (Exn PayloadLimitError "Status: 400; Code 1406; Message: %s" [errmsg])
      else
        raise (Exn UnexpectedError (fst generic) (snd generic))
    else if code =? 405 then
      if eq_int errcode 1102 then
        raise (Exn NotAllowedError "Status: 405; Code 1102; Message: %s" [errmsg])
      else
        raise (Exn UnexpectedError (fst generic) (snd generic))
    else if code =? 500 then
      if eq_int errcode 1201 then
        raise (Exn InternalError "Status: 500; Code 1201; Message: %s" [errmsg])
      else
        raise (Exn InternalError (fst generic) (snd generic))
    else if code =? 404 then
      if eq_int errcode 1301 then
        raise (Exn NotFoundError "Status: 404; Code 1301; Message: %s" [errmsg])
      else if eq_int errcode 1302 then
        raise (Exn NotFoundError "Status: 404; Code 1302; Message: %s" [errmsg])
      else if eq_int errcode 1303 then
        raise (Exn NotFoundError "Status: 404; Code 1303; Message: %s" [errmsg])
      else if eq_int errcode 1304 then
        raise (Exn AlreadyExistError "Status: 404; Code 1304; Message: %s" [errmsg])
      else if eq_int errcode 1305 then
        raise (Exn AlreadyExistError "Status: 404; Code 1305; Message: %s" [errmsg])
      else if eq_int errcode 1306 then
        raise (Exn AlreadyExistError "Status: 404; Code 1306; Message: %s" [errmsg])
      else
        raise (Exn UnexpectedError (fst generic) (snd generic))
    else
      raise (Exn UnexpectedError (fst generic) (snd generic)).

Definition __postData__ (self : t) (uri data : string) (auth : option bool)
  : M value :=
  let auth := default true auth in
  url <- (if ssl self
          then lift (format "%s://%s:%s%s" ["https"; hostname self; port self; uri])
          else lift (format "%s://%s:%s%s" ["http"; hostname self; port self; uri])) ;;
  let md5 := decode (b64encode (md5 (encode data))) in
  date <- formatdate ;;
  headers <-
    (if auth then
       sig <- __signRequest__ self "POST" uri date "application/json" (Some md5) ;;
       ret [("Content-MD5", md5); ("Content-Type", "application/json");
            ("Date", date); ("Authorization", sig)]
     else
       ret [("Content-MD5", md5); ("Content-Type", "application/json");
            ("Date", date)]) ;;
  r <- requests_post url data headers ;;
  __processResponse__ self (status_code r, text r).

Definition __getData__ (self : t) (uri : string) (query : dict)
    (auth : option bool) : M value :=
  let auth := default true auth in
  url <- (if ssl self
          then lift (format "%s://%s:%s%s" ["https"; hostname self; port self; uri])
          else lift (format "%s://%s:%s%s" ["http"; hostname self; port self; uri])) ;;
  full_uri <- lift (format "%s?%s" [uri; urlencode query]) ;;
  date <- formatdate ;;
  headers <-
    (if auth then
       sig <- __signRequest__ self "GET" full_uri date "application/json" None ;;
       ret [("Content-Type", "application/json"); ("Date", date);
            ("Authorization", sig)]
     else
       ret [("Content-Type", "application/json"); ("Date", date)]) ;;
  r <- requests_get url query headers ;;
  __processResponse__ self (status_code r, text r).

Definition readPublic (self : t) (owner channel resource : string)
    (limit source time_range data_filter sample_rate : option value) : M value :=
  let limit := default (VInt 750) limit in
  let source := default (VStr "raw") source in
  let time_range := default VNone time_range in
  let data_filter := default VNone data_filter in
  let sample_rate := default VNone sample_rate in
  let query := [("limit", limit); ("source", source)] in
  let query := if truthy time_range
               then dict_set query "time-range" time_range else query in
  let query := if truthy data_filter
               then dict_set query "filter" data_filter else query in
  query <- (if truthy sample_rate then
              (* [query['sample-rate'] = sample-rate] *)
              sample <- load_global "sample" ;;
              rate <- load_global "rate" ;;
              v <- sub_globals sample rate ;;
              ret (dict_set query "sample-rate" v)
            else ret query) ;;
  endpoint <- lift (format "%s/%s/%s/%s"
                      [__publicReadEndpoint__; owner; channel; resource]) ;;
  response <- __getData__ self endpoint query (Some false) ;;
  ret response.

Definition read (self : t) (channel resource : string)
    (limit source time_range data_filter sample_rate : option value) : M value :=
  let limit := default (VInt 1) limit in
  let source := default (VStr "raw") source in
  let time_range := default VNone time_range in
  let data_filter := default VNone data_filter in
  let sample_rate := default VNone sample_rate in
  let query := [("limit", limit); ("source", source)] in
  let query := if truthy time_range
               then dict_set query "time-range" time_range else query in
  let query := if truthy data_filter
               then dict_set query "filter" data_filter else query in
  query <- (if truthy sample_rate then
              (* [query['sample-rate'] = sample-rate] *)
              sample <- load_global "sample" ;;
              rate <- load_global "rate" ;;
              v <- sub_globals sample rate ;;
              ret (dict_set query "sample-rate" v)
            else ret query) ;;
  endpoint <- lift (format "%s/%s/%s" [__readEndpoint__; channel; resource]) ;;
  response <- __getData__ self endpoint query (Some false) ;;
  ret response.

Definition write (self : t) (channel resource : string) (data : value)
    (ts : option value) : M value :=
  let ts := default VNone ts in
  let body := [("data", data)] in
  body <- (if truthy ts then ret (dict_set body "ts" ts)
           else now <- time_ms ;; ret (dict_set body "ts" (VInt now))) ;;
  endpoint <- lift (format "%s/%s/%s" [__writeEndpoint__; channel; resource]) ;;
  response <- __postData__ self endpoint (json_dumps (VDict body)) (Some true) ;;
  ret response.

Definition writeBulk (self : t) (channel : string) (data_array : value)
  : M value :=
  let body := [("data", data_array)] in
  (* the operands of [%] are evaluated first; [resource] is neither a
     local variable nor a module-level name *)
  resource <- load_global "resource" ;;
  endpoint <- lift (format "%s/%s"
                      [__writeEndpoint__; channel; str_global resource]) ;;
  response <- __postData__ self endpoint (json_dumps (VDict body)) (Some true) ;;
  ret response.

Definition publish (self : t) (channel resource : string) (data : value)
    (ts source : option value) : M value :=
  let ts := default VNone ts in
  let source := default VNone source in
  let body := [("data", data)] in
  let body := if truthy source then dict_set body "source" source else body in
  body <- (if truthy ts then ret (dict_set body "ts" ts)
           else now <- time_ms ;; ret (dict_set body "ts" (VInt now))) ;;
  endpoint <- lift (format "%s/%s/%s" [__publishEndpoint__; channel; resource]) ;;
  response <- __postData__ self endpoint (json_dumps (VDict body)) (Some true) ;;
  ret response.

Definition publishBulk (self : t) (channel : string) (data_array : value)
  : M value :=
  let body := [("data", data_array)] in
  resource <- load_global "resource" ;;
  endpoint <- lift (format "%s/%s"
                      [__publishEndpoint__; channel; str_global resource]) ;;
  response <- __postData__ self endpoint (json_dumps (VDict body)) (Some true) ;;
  ret response.

Definition auth_client (self : t) (sid channel : string)
    (resource : option string) (ttl : option Z) (read write : option value)
  : M string :=
  let resource := default "*" resource in
  let ttl := default 0 ttl in
  let read := default (VBool false) read in
  let write := default (VBool false) write in
  let r := "false" in
  let w := "false" in
  let r := if truthy read then "true" else r in
  let w := if truthy write then "true" else w in
  stringToSign <- lift (format "%s:%s.%s.:ttl=%s:read=%s:write=%s"
                          [sid; channel; resource; str_int ttl; r; w]) ;;
  sign self stringToSign.

End Methods.
End BBT.

(** ** Attribute lookup on a client instance *)

Module Attr.

(** A computation that looks an attribute up on an object ends like any
    other, or with the [AttributeError] of the missing attribute. *)
Inductive outcome (A : Type) : Type :=
| Done (r : result A)
| AttributeError (attr : string).
Arguments Done {A} r.
Arguments AttributeError {A} attr.

Section Table.
Context {L : PyLib}.

(** A bound method of a client called with eight positional arguments. *)
Definition callable8 : Type :=
  BBT.t -> string -> string -> string -> value -> value -> value -> value
  -> value -> M value.

(** The attributes class [BBT] defines, each with what calling it with
    eight positional arguments does when that is a valid call: only
    [readPublic] takes eight.  (The attributes inherited from [object]
    are left out; their names start and end with two underscores.) *)
Definition BBT_attributes : list (string * option callable8) :=
  [ ("akey", None); ("skey", None); ("hostname", None); ("port", None);
    ("ssl", None); ("__init__", None); ("sign", None);
    ("__signRequest__", None); ("__processResponse__", None);
    ("__postData__", None); ("__getData__", None);
    ("readPublic",
     Some (fun self owner channel resource limit source time_range
               data_filter sample_rate =>
             BBT.readPublic self owner channel resource (Some limit)
               (Some source) (Some time_range) (Some data_filter)
               (Some sample_rate)));
    ("read", None); ("write", None); ("writeBulk", None);
    ("publish", None); ("publishBulk", None); ("auth_client", None) ].

End Table.
End Attr.

(** ** class Resource *)

Module Resource.

Record t : Type := {
  channel : string;
  resource : string;
  bbt : BBT.t
}.

Definition __init__ (bbt : BBT.t) (channel resource : string) : t :=
  {| channel := channel; resource := resource; bbt := bbt |}.

Section Methods.
Context {L : PyLib}.

Definition write (self : t) (data : value) (ts : option value) : M value :=
  BBT.write (bbt self) (channel self) (resource self) data
            (Some (default VNone ts)).

Definition publish (self : t) (data : value) (ts : option value) : M value :=
  BBT.publish (bbt self) (channel self) (resource self) data
              (Some (default VNone ts)) None.

Definition recentVal (self : t) : M value :=
  records <- BBT.read (bbt self) (channel self) (resource self)
                      (Some (VInt 1)) None None None None ;;
  lift (getindex records 0).

(** [read(limit = 750, owner = None, source = "live", ...)]; [owner] is
    [None] or a user name. *)
Definition read (self : t) (limit : option value) (owner : option string)
    (source time_range data_filter sample_rate : option value)
  : World -> Attr.outcome value * World :=
  fun w =>
    let limit := default (VInt 750) limit in
    let source := default (VStr "live") source in
    let time_range := default VNone time_range in
    let data_filter := default VNone data_filter in
    let sample_rate := default VNone sample_rate in
    if truthy (match owner with Some o => VStr o | None => VNone end) then
      (* [self.bbt.publicRead] is looked up before the arguments *)
      match dict_get Attr.BBT_attributes "publicRead" with
      | None => (Attr.AttributeError "publicRead", w)
      | Some None =>
          (Attr.Done (Raise (Exn BuiltinTypeError
                               "wrong number of arguments or not callable" [])),
           w)
      | Some (Some method) =>
          let '(r, w') :=
            method (bbt self) (default EmptyString owner) (channel self)
                   (resource self) limit source time_range data_filter
                   sample_rate w in
          (Attr.Done r, w')
      end
    else
      let '(r, w') :=
        BBT.read (bbt self) (channel self) (resource self) (Some limit)
                 (Some source) (Some time_range) None None w in
      (Attr.Done r, w').

End Methods.
End Resource.

(** ** class DataPoint *)

Module DataPoint.

(** [channel] and [resource] hold [None] or a string. *)
Record t : Type := {
  channel : value;
  resource : value;
  data : value;
  ts : value
}.

Definition __init__ (data ts : value) (channel resource : option value) : t :=
  {| channel := default VNone channel;
     resource := default VNone resource;
     data := data;
     ts := ts |}.

Definition fromJSON (params : value) : M t :=
  data <- lift (getitem params "data") ;;
  ts <- lift (getitem params "ts") ;;
  ret (__init__ data ts None None).

Definition toJSON (self : t) (owner : option value) : value :=
  let owner := default VNone owner in
  VDict [("owner", owner); ("channel", channel self);
         ("resource", resource self); ("data", data self); ("ts", ts self)].

End DataPoint.

(** ** Reference implementations of the imported library functions

    The statements about the client hold for any [PyLib]; the functions
    below make the model run on concrete inputs.  The digests follow
    RFC 3174 (SHA-1), RFC 1321 (MD5), RFC 2104 (HMAC) and RFC 4648
    (base64), on 32-bit words held in [Z] with the wrap-around written
    out. *)

Module Ref.

Local Open Scope list_scope.

Definition Z_of_byte (b : byte) : Z := Z.of_N (Byte.to_N b).

Definition byte_of_Z (z : Z) : byte :=
  match Byte.of_N (Z.to_N (z mod 256)) with
  | Some b => b
  | None => x00
  end.

Definition w32 (x : Z) : Z := x mod 2 ^ 32.

Definition rotl (n x : Z) : Z :=
  w32 (Z.lor (Z.shiftl x n) (Z.shiftr x (32 - n))).

Definition not32 (x : Z) : Z := Z.lxor x 0xffffffff.

(** Splits [l] into consecutive blocks of [n] elements. *)
Fixpoint blocks {A : Type} (fuel n : nat) (l : list A) : list (list A) :=
  match fuel with
  | O => []
  | S fuel' =>
      match l with
      | [] => []
      | _ :: _ => firstn n l :: blocks fuel' n (skipn n l)
      end
  end.

Definition be_word (bs : list byte) : Z :=
  fold_left (fun acc b => acc * 256 + Z_of_byte b) bs 0.

Definition le_word (bs : list byte) : Z :=
  fold_right (fun b acc => acc * 256 + Z_of_byte b) 0 bs.

(** The [n] low-order bytes of [x], most significant first. *)
Fixpoint be_bytes (n : nat) (x : Z) : list byte :=
  match n with
  | O => []
  | S n' => be_bytes n' (Z.shiftr x 8) ++ [byte_of_Z x]
  end.

Fixpoint le_bytes (n : nat) (x : Z) : list byte :=
  match n with
  | O => []
  | S n' => byte_of_Z x :: le_bytes n' (Z.shiftr x 8)
  end.

(** Message padding to a multiple of 64 bytes: a one bit, zeros, and the
    bit length on 8 bytes written by [len_bytes]. *)
Definition pad (len_bytes : nat -> Z -> list byte) (msg : list byte)
  : list byte :=
  let n := Z.of_nat (List.length msg) in
  let zeros := Z.to_nat ((55 - n) mod 64) in
  msg ++ [x80] ++ repeat x00 zeros ++ len_bytes 8%nat (8 * n).

(** *** SHA-1 *)

Definition sha1_f (t b c d : Z) : Z :=
  if t <? 20 then Z.lor (Z.land b c) (Z.land (not32 b) d)
  else if t <? 40 then Z.lxor (Z.lxor b c) d
  else if t <? 60 then Z.lor (Z.lor (Z.land b c) (Z.land b d)) (Z.land c d)
  else Z.lxor (Z.lxor b c) d.

Definition sha1_k (t : Z) : Z :=
  if t <? 20 then 0x5a827999
  else if t <? 40 then 0x6ed9eba1
  else if t <? 60 then 0x8f1bbcdc
  else 0xca62c1d6.

(** [n] rounds from round [t]; [win] holds the sixteen schedule words
    W(t) .. W(t+15). *)
Fixpoint sha1_rounds (n : nat) (t : Z) (st : Z * Z * Z * Z * Z)
    (win : list Z) : Z * Z * Z * Z * Z :=
  match n with
  | O => st
  | S n' =>
      match win with
      | [] => st
      | w :: rest =>
          let next := rotl 1 (Z.lxor (Z.lxor (nth 13 win 0) (nth 8 win 0))
                                     (Z.lxor (nth 2 win 0) w)) in
          let '(a, b, c, d, e) := st in
          let temp := w32 (rotl 5 a + sha1_f t b c d + e + sha1_k t + w) in
          sha1_rounds n' (t + 1) (temp, a, rotl 30 b, c, d) (rest ++ [next])
      end
  end.

Definition sha1_block (h : Z * Z * Z * Z * Z) (blk : list byte)
  : Z * Z * Z * Z * Z :=
  let win := map be_word (blocks 16 4 blk) in
  let '(h0, h1, h2, h3, h4) := h in
  let '(a, b, c, d, e) := sha1_rounds 80 0 h win in
  (w32 (h0 + a), w32 (h1 + b), w32 (h2 + c), w32 (h3 + d), w32 (h4 + e)).

Definition sha1 (msg : list byte) : list byte :=
  let padded := pad be_bytes msg in
  let '(h0, h1, h2, h3, h4) :=
    fold_left sha1_block (blocks (List.length padded) 64 padded)
      (0x67452301, 0xefcdab89, 0x98badcfe, 0x10325476, 0xc3d2e1f0) in
  be_bytes 4 h0 ++ be_bytes 4 h1 ++ be_bytes 4 h2 ++ be_bytes 4 h3
    ++ be_bytes 4 h4.

(** *** MD5 *)

Definition md5_k : list Z :=
  [ 0xd76aa478; 0xe8c7b756; 0x242070db; 0xc1bdceee;
    0xf57c0faf; 0x4787c62a; 0xa8304613; 0xfd469501;
    0x698098d8; 0x8b44f7af; 0xffff5bb1; 0x895cd7be;
    0x6b901122; 0xfd987193; 0xa679438e; 0x49b40821;
    0xf61e2562; 0xc040b340; 0x265e5a51; 0xe9b6c7aa;
    0xd62f105d; 0x02441453; 0xd8a1e681; 0xe7d3fbc8;
    0x21e1cde6; 0xc33707d6; 0xf4d50d87; 0x455a14ed;
    0xa9e3e905; 0xfcefa3f8; 0x676f02d9; 0x8d2a4c8a;
    0xfffa3942; 0x8771f681; 0x6d9d6122; 0xfde5380c;
    0xa4beea44; 0x4bdecfa9; 0xf6bb4b60; 0xbebfbc70;
    0x289b7ec6; 0xeaa127fa; 0xd4ef3085; 0x04881d05;
    0xd9d4d039; 0xe6db99e5; 0x1fa27cf8; 0xc4ac5665;
    0xf4292244; 0x432aff97; 0xab9423a7; 0xfc93a039;
    0x655b59c3; 0x8f0ccc92; 0xffeff47d; 0x85845dd1;
    0x6fa87e4f; 0xfe2ce6e0; 0xa3014314; 0x4e0811a1;
    0xf7537e82; 0xbd3af235; 0x2ad7d2bb; 0xeb86d391 ].

Definition md5_s : list Z :=
  [ 7; 12; 17; 22; 7; 12; 17; 22; 7; 12; 17; 22; 7; 12; 17; 22;
    5; 9; 14; 20; 5; 9; 14; 20; 5; 9; 14; 20; 5; 9; 14; 20;
    4; 11; 16; 23; 4; 11; 16; 23; 4; 11; 16; 23; 4; 11; 16; 23;
    6; 10; 15; 21; 6; 10; 15; 21; 6; 10; 15; 21; 6; 10; 15; 21 ].

Definition md5_f (i b c d : Z) : Z :=
  if i <? 16 then Z.lor (Z.land b c) (Z.land (not32 b) d)
  else if i <? 32 then Z.lor (Z.land d b) (Z.land (not32 d) c)
  else if i <? 48 then Z.lxor (Z.lxor b c) d
  else Z.lxor c (Z.lor b (not32 d)).

Definition md5_g (i : Z) : Z :=
  if i <? 16 then i
  else if i <? 32 then (5 * i + 1) mod 16
  else if i <? 48 then (3 * i + 5) mod 16
  else (7 * i) mod 16.

Fixpoint md5_rounds (n : nat) (i : Z) (m : list Z) (st : Z * Z * Z * Z)
  : Z * Z * Z * Z :=
  match n with
  | O => st
  | S n' =>
      let '(a, b, c, d) := st in
      let f := w32 (md5_f i b c d + a + nth (Z.to_nat i) md5_k 0
                    + nth (Z.to_nat (md5_g i)) m 0) in
      md5_rounds n' (i + 1) m
        (d, w32 (b + rotl (nth (Z.to_nat i) md5_s 0) f), b, c)
  end.

Definition md5_block (h : Z * Z * Z * Z) (blk : list byte) : Z * Z * Z * Z :=
  let m := map le_word (blocks 16 4 blk) in
  let '(a0, b0, c0, d0) := h in
  let '(a, b, c, d) := md5_rounds 64 0 m h in
  (w32 (a0 + a), w32 (b0 + b), w32 (c0 + c), w32 (d0 + d)).

Definition md5 (msg : list byte) : list byte :=
  let padded := pad le_bytes msg in
  let '(a, b, c, d) :=
    fold_left md5_block (blocks (List.length padded) 64 padded)
      (0x67452301, 0xefcdab89, 0x98badcfe, 0x10325476) in
  le_bytes 4 a ++ le_bytes 4 b ++ le_bytes 4 c ++ le_bytes 4 d.

(** *** HMAC over SHA-1 *)

Definition xor_pad (p : Z) (key : list byte) : list byte :=
  map (fun b => byte_of_Z (Z.lxor (Z_of_byte b) p)) key.

Definition hmac_sha1 (key msg : list byte) : list byte :=
  let key := if (64 <? List.length key)%nat then sha1 key else key in
  let key := key ++ repeat x00 (64 - List.length key) in
  sha1 (xor_pad 0x5c key ++ sha1 (xor_pad 0x36 key ++ msg)).

(** *** base64 *)

Definition b64_alphabet : string :=
  "ABCDEFGHIJKLMNOPQRSTUVWXYZabcdefghijklmnopqrstuvwxyz0123456789+/".

Definition b64_digit (n : Z) : byte :=
  match String.get (Z.to_nat (n mod 64)) b64_alphabet with
  | Some c => byte_of_ascii c
  | None => x3d
  end.

Fixpoint b64encode (bs : list byte) : list byte :=
  match bs with
  | [] => []
  | [a] =>
      let n := Z_of_byte a * 65536 in
      [b64_digit (Z.shiftr n 18); b64_digit (Z.shiftr n 12); x3d; x3d]
  | [a; b] =>
      let n := Z_of_byte a * 65536 + Z_of_byte b * 256 in
      [b64_digit (Z.shiftr n 18); b64_digit (Z.shiftr n 12);
       b64_digit (Z.shiftr n 6); x3d]
  | a :: b :: c :: rest =>
      let n := Z_of_byte a * 65536 + Z_of_byte b * 256 + Z_of_byte c in
      b64_digit (Z.shiftr n 18) :: b64_digit (Z.shiftr n 12)
        :: b64_digit (Z.shiftr n 6) :: b64_digit n :: b64encode rest
  end.

Definition hex_digit (n : Z) : ascii :=
  match String.get (Z.to_nat (n mod 16)) "0123456789abcdef" with
  | Some c => c
  | None => "0"%char
  end.

(** [digest.hexdigest()], to compare digests with published vectors. *)
Fixpoint hex (bs : list byte) : string :=
  match bs with
  | [] => EmptyString
  | b :: bs' =>
      String (hex_digit (Z.shiftr (Z_of_byte b) 4))
        (String (hex_digit (Z_of_byte b)) (hex bs'))
  end.

Local Open Scope string_scope.
Local Open Scope Z_scope.

(** *** JSON text

    The decoder covers the JSON grammar except numbers with a fraction or
    an exponent (Python floats, outside [value]) and escaped lone
    surrogates (not representable as UTF-8): it answers [None] on those. *)

Definition dquote : ascii := ascii_of_nat 34.
Definition backslash : ascii := ascii_of_nat 92.

Definition is_ws (c : ascii) : bool :=
  let n := nat_of_ascii c in
  (Nat.eqb n 32 || Nat.eqb n 9 || Nat.eqb n 10 || Nat.eqb n 13)%nat%bool.

Fixpoint skip_ws (s : string) : string :=
  match s with
  | String c rest => if is_ws c then skip_ws rest else s
  | EmptyString => s
  end.

Definition digit_of (c : ascii) : option Z :=
  let n := Z.of_nat (nat_of_ascii c) in
  if (48 <=? n) && (n <=? 57) then Some (n - 48) else None.

Definition hexval (c : ascii) : option Z :=
  let n := Z.of_nat (nat_of_ascii c) in
  if (48 <=? n) && (n <=? 57) then Some (n - 48)
  else if (97 <=? n) && (n <=? 102) then Some (n - 87)
  else if (65 <=? n) && (n <=? 70) then Some (n - 55)
  else None.

Fixpoint digits (s : string) (acc : Z) : Z * string :=
  match s with
  | String c rest =>
      match digit_of c with
      | Some d => digits rest (acc * 10 + d)
      | None => (acc, s)
      end
  | EmptyString => (acc, s)
  end.

Definition starts_float (s : string) : bool :=
  match s with
  | String c _ =>
      (Ascii.eqb c "."%char || Ascii.eqb c "e"%char || Ascii.eqb c "E"%char)%bool
  | EmptyString => false
  end.

(** An integer literal without sign: [0] or a digit string without
    leading zero. *)
Definition natural (s : string) : option (Z * string) :=
  match s with
  | String c rest =>
      match digit_of c with
      | Some 0 => if starts_float rest then None else
                  match rest with
                  | String c' _ =>
                      match digit_of c' with
                      | Some _ => None
                      | None => Some (0, rest)
                      end
                  | EmptyString => Some (0, rest)
                  end
      | Some d => let '(n, rest') := digits rest d in
                  if starts_float rest' then None else Some (n, rest')
      | None => None
      end
  | EmptyString => None
  end.

Definition utf8 (cp : Z) : string :=
  let b (z : Z) := ascii_of_nat (Z.to_nat z) in
  if cp <? 0x80 then String (b cp) EmptyString
  else if cp <? 0x800 then
    String (b (0xc0 + Z.shiftr cp 6))
      (String (b (0x80 + Z.land cp 0x3f)) EmptyString)
  else if cp <? 0x10000 then
    String (b (0xe0 + Z.shiftr cp 12))
      (String (b (0x80 + Z.land (Z.shiftr cp 6) 0x3f))
         (String (b (0x80 + Z.land cp 0x3f)) EmptyString))
  else
    String (b (0xf0 + Z.shiftr cp 18))
      (String (b (0x80 + Z.land (Z.shiftr cp 12) 0x3f))
         (String (b (0x80 + Z.land (Z.shiftr cp 6) 0x3f))
            (String (b (0x80 + Z.land cp 0x3f)) EmptyString))).

Definition hex4 (s : string) : option (Z * string) :=
  match s with
  | String a (String b (String c (String d rest))) =>
      match hexval a, hexval b, hexval c, hexval d with
      | Some x, Some y, Some z, Some t =>
          Some (((x * 16 + y) * 16 + z) * 16 + t, rest)
      | _, _, _, _ => None
      end
  | _ => None
  end.

(** The characters of a string literal after its opening quote. *)
Fixpoint string_body (fuel : nat) (s : string) : option (string * string) :=
  match fuel with
  | O => None
  | S fuel' =>
      match s with
      | EmptyString => None
      | String c rest =>
          if Ascii.eqb c dquote then Some (EmptyString, rest)
          else if Ascii.eqb c backslash then
            match rest with
            | EmptyString => None
            | String e rest' =>
                let continue (lit : string) (r : string) :=
                  match string_body fuel' r with
                  | Some (body, r') => Some (lit ++ body, r')
                  | None => None
                  end in
                let one (n : nat) := String (ascii_of_nat n) EmptyString in
                if Ascii.eqb e dquote then continue (one 34%nat) rest'
                else if Ascii.eqb e backslash then continue (one 92%nat) rest'
                else if Ascii.eqb e "/"%char then continue "/" rest'
                else if Ascii.eqb e "b"%char then continue (one 8%nat) rest'
                else if Ascii.eqb e "f"%char then continue (one 12%nat) rest'
                else if Ascii.eqb e "n"%char then continue (one 10%nat) rest'
                else if Ascii.eqb e "r"%char then continue (one 13%nat) rest'
                else if Ascii.eqb e "t"%char then continue (one 9%nat) rest'
                else if Ascii.eqb e "u"%char then
                  match hex4 rest' with
                  | Some (hi, r) =>
                      if (0xd800 <=? hi) && (hi <? 0xdc00) then
                        match r with
                        | String b1 (String b2 r2) =>
                            if Ascii.eqb b1 backslash && Ascii.eqb b2 "u"%char then
                              match hex4 r2 with
                              | Some (lo, r3) =>
                                  if (0xdc00 <=? lo) && (lo <? 0xe000) then
                                    continue
                                      (utf8 (0x10000 + (hi - 0xd800) * 1024
                                             + (lo - 0xdc00))) r3
                                  else None
                              | None => None
                              end
                            else None
                        | _ => None
                        end
                      else if (0xdc00 <=? hi) && (hi <? 0xe000) then None
                      else continue (utf8 hi) r
                  | None => None
                  end
                else None
            end
          else if (nat_of_ascii c <? 32)%nat then None
          else
            match string_body fuel' rest with
            | Some (body, r') => Some (String c body, r')
            | None => None
            end
      end
  end.

Definition drop (n : nat) (s : string) : string :=
  String.substring n (String.length s - n)%nat s.

Fixpoint parse_value (fuel : nat) (s : string) {struct fuel}
  : option (value * string) :=
  match fuel with
  | O => None
  | S fuel' =>
      let s := skip_ws s in
      match s with
      | EmptyString => None
      | String c rest =>
          if Ascii.eqb c "{"%char then
            match skip_ws rest with
            | String c' rest' =>
                if Ascii.eqb c' "}"%char then Some (VDict [], rest')
                else
                  match parse_members fuel' rest [] with
                  | Some (d, r) => Some (VDict d, r)
                  | None => None
                  end
            | EmptyString => None
            end
          else if Ascii.eqb c "["%char then
            match skip_ws rest with
            | String c' rest' =>
                if Ascii.eqb c' "]"%char then Some (VList [], rest')
                else
                  match parse_elements fuel' rest with
                  | Some (l, r) => Some (VList l, r)
                  | None => None
                  end
            | EmptyString => None
            end
          else if Ascii.eqb c dquote then
            match string_body (String.length rest) rest with
            | Some (str, r) => Some (VStr str, r)
            | None => None
            end
          else if Ascii.eqb c "-"%char then
            match natural rest with
            | Some (n, r) => Some (VInt (- n), r)
            | None => None
            end
          else if String.prefix "null" s then Some (VNone, drop 4%nat s)
          else if String.prefix "true" s then Some (VBool true, drop 4%nat s)
          else if String.prefix "false" s then Some (VBool false, drop 5%nat s)
          else
            match natural s with
            | Some (n, r) => Some (VInt n, r)
            | None => None
            end
      end
  end

with parse_elements (fuel : nat) (s : string) {struct fuel}
  : option (list value * string) :=
  match fuel with
  | O => None
  | S fuel' =>
      match parse_value fuel' s with
      | Some (v, r) =>
          match skip_ws r with
          | String c r' =>
              if Ascii.eqb c ","%char then
                match parse_elements fuel' r' with
                | Some (l, r'') => Some (v :: l, r'')
                | None => None
                end
              else if Ascii.eqb c "]"%char then Some ([v], r')
              else None
          | EmptyString => None
          end
      | None => None
      end
  end

with parse_members (fuel : nat) (s : string) (acc : dict) {struct fuel}
  : option (dict * string) :=
  match fuel with
  | O => None
  | S fuel' =>
      match skip_ws s with
      | String q r =>
          if Ascii.eqb q dquote then
            match string_body (String.length r) r with
            | Some (k, r1) =>
                match skip_ws r1 with
                | String colon r2 =>
                    if Ascii.eqb colon ":"%char then
                      match parse_value fuel' r2 with
                      | Some (v, r3) =>
                          let acc := dict_set acc k v in
                          match skip_ws r3 with
                          | String c r4 =>
                              if Ascii.eqb c ","%char
                              then parse_members fuel' r4 acc
                              else if Ascii.eqb c "}"%char then Some (acc, r4)
                              else None
                          | EmptyString => None
                          end
                      | None => None
                      end
                    else None
                | EmptyString => None
                end
            | None => None
            end
          else None
      | EmptyString => None
      end
  end.

Definition json_loads (s : string) : option value :=
  match parse_value (2 * String.length s + 2)%nat s with
  | Some (v, rest) =>
      match skip_ws rest with
      | EmptyString => Some v
      | String _ _ => None
      end
  | None => None
  end.

(** Four lower-case hexadecimal digits. *)
Definition hex16 (n : Z) : string :=
  String (hex_digit (Z.shiftr n 12))
    (String (hex_digit (Z.shiftr n 8))
       (String (hex_digit (Z.shiftr n 4))
          (String (hex_digit n) EmptyString))).

Definition u_escape (cp : Z) : string :=
  if cp <? 0x10000 then String backslash ("u" ++ hex16 cp)
  else
    let v := cp - 0x10000 in
    String backslash ("u" ++ hex16 (0xd800 + Z.shiftr v 10))
      ++ String backslash ("u" ++ hex16 (0xdc00 + Z.land v 0x3ff)).

Definition code (c : ascii) : Z := Z.of_nat (nat_of_ascii c).

(** The characters of a string literal as [json.dumps] writes them with
    its default [ensure_ascii]: printable ASCII as it is, the short
    escapes, and [\uXXXX] for the rest, UTF-8 sequences being decoded to
    their code point first. *)
Fixpoint escape (fuel : nat) (s : string) : string :=
  match fuel with
  | O => EmptyString
  | S fuel' =>
      match s with
      | EmptyString => EmptyString
      | String c rest =>
          let n := code c in
          let two (e : string) := String backslash e ++ escape fuel' rest in
          if Ascii.eqb c dquote then two (String dquote EmptyString)
          else if Ascii.eqb c backslash then two (String backslash EmptyString)
          else if n =? 10 then two "n"
          else if n =? 13 then two "r"
          else if n =? 9 then two "t"
          else if n =? 8 then two "b"
          else if n =? 12 then two "f"
          else if (32 <=? n) && (n <? 127) then String c (escape fuel' rest)
          else if n <? 0xc0 then u_escape n ++ escape fuel' rest
          else
            match rest with
            | String c1 r1 =>
                if n <? 0xe0 then
                  u_escape (Z.land n 0x1f * 64 + Z.land (code c1) 0x3f)
                    ++ escape fuel' r1
                else
                  match r1 with
                  | String c2 r2 =>
                      if n <? 0xf0 then
                        u_escape ((Z.land n 0x0f * 64 + Z.land (code c1) 0x3f) * 64
                                  + Z.land (code c2) 0x3f)
                          ++ escape fuel' r2
                      else
                        match r2 with
                        | String c3 r3 =>
                            u_escape
                              (((Z.land n 0x07 * 64 + Z.land (code c1) 0x3f) * 64
                                + Z.land (code c2) 0x3f) * 64
                               + Z.land (code c3) 0x3f)
                              ++ escape fuel' r3
                        | EmptyString => u_escape n ++ escape fuel' rest
                        end
                  | EmptyString => u_escape n ++ escape fuel' rest
                  end
            | EmptyString => u_escape n
            end
      end
  end.

Definition quoted (s : string) : string :=
  String dquote (escape (String.length s) s ++ String dquote EmptyString).

(** [json.dumps(v, separators=(',', ':'))] *)
Fixpoint json_dumps (v : value) : string :=
  match v with
  | VNone => "null"
  | VBool true => "true"
  | VBool false => "false"
  | VInt z => str_int z
  | VStr s => quoted s
  | VList l =>
      "[" ++ (fix items (l : list value) : string :=
                match l with
                | [] => EmptyString
                | [x] => json_dumps x
                | x :: l' => json_dumps x ++ "," ++ items l'
                end) l ++ "]"
  | VDict d =>
      "{" ++ (fix members (d : list (string * value)) : string :=
                match d with
                | [] => EmptyString
                | [(k, x)] => quoted k ++ ":" ++ json_dumps x
                | (k, x) :: d' =>
                    quoted k ++ ":" ++ json_dumps x ++ "," ++ members d'
                end) d ++ "}"
  end.

(** *** Query strings *)

Definition unreserved (c : ascii) : bool :=
  let n := code c in
  ((48 <=? n) && (n <=? 57)) || ((65 <=? n) && (n <=? 90))
  || ((97 <=? n) && (n <=? 122))
  || Ascii.eqb c "_"%char || Ascii.eqb c "."%char || Ascii.eqb c "-"%char
  || Ascii.eqb c "~"%char.

Definition HEX_digit (n : Z) : ascii :=
  match String.get (Z.to_nat (n mod 16)) "0123456789ABCDEF" with
  | Some c => c
  | None => "0"%char
  end.

(** [urllib.parse.quote_plus] *)
Fixpoint quote_plus (s : string) : string :=
  match s with
  | EmptyString => EmptyString
  | String c rest =>
      if unreserved c then String c (quote_plus rest)
      else if Ascii.eqb c " "%char then String "+"%char (quote_plus rest)
      else String "%"%char
             (String (HEX_digit (Z.shiftr (code c) 4))
                (String (HEX_digit (code c)) (quote_plus rest)))
  end.

Fixpoint contains (c : ascii) (s : string) : bool :=
  match s with
  | EmptyString => false
  | String c' rest => Ascii.eqb c c' || contains c rest
  end.

Definition squote : ascii := ascii_of_nat 39.

(** The characters of [repr(s)] between its quotes, [quote] being the
    quote chosen: backslash, the quote and the control characters are
    escaped, the bytes of non-ASCII characters are kept (Python keeps the
    printable ones, which is all the reference covers). *)
Fixpoint repr_body (quote : ascii) (s : string) : string :=
  match s with
  | EmptyString => EmptyString
  | String c rest =>
      let n := code c in
      let two (e : string) := String backslash e ++ repr_body quote rest in
      if Ascii.eqb c backslash then two (String backslash EmptyString)
      else if Ascii.eqb c quote then two (String quote EmptyString)
      else if n =? 10 then two "n"
      else if n =? 13 then two "r"
      else if n =? 9 then two "t"
      else if (n <? 32) || (n =? 127) then
        two (String "x"%char
               (String (hex_digit (Z.shiftr n 4))
                  (String (hex_digit n) EmptyString)))
      else String c (repr_body quote rest)
  end.

(** [repr(s)] of a string: single quotes, unless the string has a single
    quote and no double quote. *)
Definition repr_str (s : string) : string :=
  let quote := if contains squote s && negb (contains dquote s)
               then dquote else squote in
  String quote (repr_body quote s ++ String quote EmptyString).

(** [repr(v)] *)
Fixpoint repr (v : value) : string :=
  match v with
  | VNone => "None"
  | VBool true => "True"
  | VBool false => "False"
  | VInt z => str_int z
  | VStr s => repr_str s
  | VList l =>
      "[" ++ (fix items (l : list value) : string :=
                match l with
                | [] => EmptyString
                | [x] => repr x
                | x :: l' => repr x ++ ", " ++ items l'
                end) l ++ "]"
  | VDict d =>
      "{" ++ (fix members (d : list (string * value)) : string :=
                match d with
                | [] => EmptyString
                | [(k, x)] => repr_str k ++ ": " ++ repr x
                | (k, x) :: d' =>
                    repr_str k ++ ": " ++ repr x ++ ", " ++ members d'
                end) d ++ "}"
  end.

(** [str(v)]: a string is itself, every other value is its [repr]. *)
Definition str_value (v : value) : string :=
  match v with
  | VStr s => s
  | _ => repr v
  end.

(** [urllib.urlencode(query)] *)
Fixpoint urlencode (query : dict) : string :=
  match query with
  | [] => EmptyString
  | [(k, v)] => quote_plus k ++ "=" ++ quote_plus (str_value v)
  | (k, v) :: q' =>
      quote_plus k ++ "=" ++ quote_plus (str_value v) ++ "&" ++ urlencode q'
  end.

(** The reference library. *)
Definition lib : PyLib :=
  Build_PyLib hmac_sha1 md5 b64encode json_dumps json_loads urlencode.

End Ref.

(** ** The specification's vocabulary *)

Module Spec.

(** The error kinds of the specification's taxonomy. *)
Inductive ErrorKind : Type :=
| KAuthentication | KParameter | KBadRequest | KInvalidType | KBadType
| KPayloadLimit | KNotAllowed | KInternal | KNotFound | KAlreadyExist
| KUnexpected | KMalformedResponse | KTransport.

(** The kind each exception class stands for; the built-in exceptions
    and [UsageLimitError] are no kind of the taxonomy. *)
Definition kind_of (c : exn_class) : option ErrorKind :=
  match c with
  | AuthenticationError => Some KAuthentication
  | ParameterError => Some KParameter
  | BadRequestError => Some KBadRequest
  | TypeError => Some KInvalidType
  | BadTypeError => Some KBadType
  | PayloadLimitError => Some KPayloadLimit
  | NotAllowedError => Some KNotAllowed
  | InternalError => Some KInternal
  | NotFoundError => Some KNotFound
  | AlreadyExistError => Some KAlreadyExist
  | UnexpectedError => Some KUnexpected
  | RequestException => Some KTransport
  | UsageLimitError | KeyError | IndexError | NameError | ValueError
  | BuiltinTypeError => None
  end.

(** The table of status and application error code, row by row as the
    specification gives it. *)
Definition table (status code : Z) : ErrorKind :=
  if (status =? 400) && (code =? 1101) then KAuthentication
  else if (status =? 400) && (code =? 1401) then KParameter
  else if (status =? 400) && (code =? 1403) then KBadRequest
  else if (status =? 400) && (code =? 1404) then KInvalidType
  else if (status =? 400) && (code =? 1405) then KBadType
  else if (status =? 400) && (code =? 1406) then KPayloadLimit
  else if (status =? 405) && (code =? 1102) then KNotAllowed
  else if (status =? 500) && (code =? 1201) then KInternal
  else if (status =? 404) && (1301 <=? code) && (code <=? 1303) then KNotFound
  else if (status =? 404) && (1304 <=? code) && (code <=? 1306) then KAlreadyExist
  else KUnexpected.

(** The same table with the row for status 500 widened to every code. *)
Definition table_500 (status code : Z) : ErrorKind :=
  if status =? 500 then KInternal else table status code.

(** The signature of a string: access key, colon, base64 of the HMAC-SHA1
    keyed by the secret key. *)
Definition token {L : PyLib} (self : BBT.t) (s : string) : string :=
  BBT.akey self ++ ":" ++
  decode (b64encode (hmac_sha1 (encode (BBT.skey self)) (encode s))).

(** The five fields of the string to sign, joined by newlines. *)
Definition canonical (verb c_md5 c_type date uri : string) : string :=
  String.concat nl [verb; c_md5; c_type; date; uri].

(** The literal a flag is rendered as. *)
Definition flag (b : bool) : string := if b then "true" else "false".

(** [http(s)://<hostname>:<port><uri>] *)
Definition url (self : BBT.t) (uri : string) : string :=
  (if BBT.ssl self then "https" else "http") ++ "://" ++ BBT.hostname self
    ++ ":" ++ BBT.port self ++ uri.

Definition content_type : string * string :=
  ("Content-Type", "application/json").

(** The request of a GET on [uri] with [query]: signed over the uri with
    its query string when [auth] holds, without [Authorization] header
    otherwise. *)
Definition get_request {L : PyLib} (self : BBT.t) (uri : string)
    (query : dict) (auth : bool) (date : string) : Request :=
  {| rq_method := GET;
     rq_url := url self uri;
     rq_params := Some query;
     rq_data := None;
     rq_headers :=
       if auth then
         [content_type; ("Date", date);
          ("Authorization",
           token self (canonical "GET" EmptyString "application/json" date
                         (uri ++ "?" ++ urlencode query)))]
       else [content_type; ("Date", date)] |}.

(** The request of a POST of [data] on [uri]; the base64 MD5 of the body
    is sent in both cases. *)
Definition post_request {L : PyLib} (self : BBT.t) (uri data : string)
    (auth : bool) (date : string) : Request :=
  let md5 := decode (b64encode (md5 (encode data))) in
  {| rq_method := POST;
     rq_url := url self uri;
     rq_params := None;
     rq_data := Some data;
     rq_headers :=
       if auth then
         [("Content-MD5", md5); content_type; ("Date", date);
          ("Authorization",
           token self (canonical "POST" md5 "application/json" date uri))]
       else [("Content-MD5", md5); content_type; ("Date", date)] |}.

(** The query of a read: [limit] (with its default) and [source], then
    [time-range] and [filter] when they are given and truthy. *)
Definition query (default_limit : Z)
    (limit source time_range data_filter : option value) : dict :=
  let time_range := default VNone time_range in
  let data_filter := default VNone data_filter in
  let q := [("limit", default (VInt default_limit) limit);
            ("source", default (VStr "raw") source)] in
  let q := if truthy time_range then dict_set q "time-range" time_range
           else q in
  if truthy data_filter then dict_set q "filter" data_filter else q.

(** The timestamp a write or publish transmits: the caller's when it is
    truthy, the clock's epoch milliseconds otherwise. *)
Definition stamp (ts : option value) (w : World) : value :=
  if truthy (default VNone ts) then default VNone ts else VInt (clock_ms w).

(** The body of a publish: [data], [source] when given and truthy, [ts]. *)
Definition publish_body (data : value) (ts source : option value)
    (w : World) : dict :=
  if truthy (default VNone source)
  then [("data", data); ("source", default VNone source); ("ts", stamp ts w)]
  else [("data", data); ("ts", stamp ts w)].

(** The request behind [recentVal]: an unsigned read with [limit] 1. *)
Definition recent_request {L : PyLib} (self : Resource.t) (w : World)
  : Request :=
  get_request (Resource.bbt self)
    ("/v1/data/read/" ++ Resource.channel self ++ "/"
       ++ Resource.resource self)
    [("limit", VInt 1); ("source", VStr "raw")] false (clock_date w).

(** The header [name] of a request, if it has one. *)
Definition header (rq : Request) (name : string) : option string :=
  dict_get (rq_headers rq) name.

(** The string a client-authentication signature is computed over. *)
Definition client_auth_string (sid channel resource : string) (ttl : Z)
    (r w : bool) : string :=
  sid ++ ":" ++ channel ++ "." ++ resource ++ ".:ttl=" ++ str_int ttl
      ++ ":read=" ++ flag r ++ ":write=" ++ flag w.

(** An error body: a JSON object whose [error] member holds an integer
    [code] and a [message]. *)
Definition error_body (data : value) (code : Z) (message : value) : Prop :=
  exists err,
    getitem data "error" = Return err /\
    getitem err "code" = Return (VInt code) /\
    getitem err "message" = Return message.

End Spec.

(** ** Concrete clients, worlds and response texts *)

Module Examples.

Definition q : string := String Ref.dquote EmptyString.

Definition client : BBT.t := BBT.__init__ "ak" "sk" None None None.

Definition handle : Resource.t := Resource.__init__ client "c" "r".

(** A service that answers every request with [status] and [body]. *)
Definition world (status : Z) (body : string) : World :=
  {| clock_ms := 1500000000000;
     clock_date := "Fri, 14 Jul 2017 02:40:00 -0000";
     respond := fun _ _ => Return {| status_code := status; text := body |};
     sent := [] |}.

(** [{"error":{"code":<code>,"message":"m"}}] *)
Definition error_text (code : Z) : string :=
  "{" ++ q ++ "error" ++ q ++ ":{" ++ q ++ "code" ++ q ++ ":"
      ++ str_int code ++ "," ++ q ++ "message" ++ q ++ ":" ++ q ++ "m" ++ q
      ++ "}}".

(** [{"error":{"message":"m"}}] *)
Definition no_code_text : string :=
  "{" ++ q ++ "error" ++ q ++ ":{" ++ q ++ "message" ++ q ++ ":" ++ q ++ "m"
      ++ q ++ "}}".

(** [{"error":{"code":1401}}] *)
Definition no_message_text : string :=
  "{" ++ q ++ "error" ++ q ++ ":{" ++ q ++ "code" ++ q ++ ":1401}}".

(** [[{"data":21,"ts":1500000000000}]] *)
Definition one_record_text : string :=
  "[{" ++ q ++ "data" ++ q ++ ":21," ++ q ++ "ts" ++ q ++ ":1500000000000}]".

Definition point : DataPoint.t :=
  DataPoint.__init__ (VInt 21) (VInt 1500000000000)
                     (Some (VStr "c")) (Some (VStr "r")).

End Examples.

(** ** Vocabulary for the properties of the remaining code *)

Module Laws.

(** [m] sends at most [n] requests, appended to those already sent, and
    leaves the clock and the service as they are. *)
Definition bounded {A : Type} (n : nat) (m : M A) : Prop :=
  forall w,
    clock_ms (snd (m w)) = clock_ms w
    /\ clock_date (snd (m w)) = clock_date w
    /\ respond (snd (m w)) = respond w
    /\ exists l, sent (snd (m w)) = (sent w ++ l)%list
                 /\ (List.length l <= n)%nat.

(** An error body whose [code] member is any JSON value. *)
Definition error_member (data code message : value) : Prop :=
  exists err,
    getitem data "error" = Return err /\
    getitem err "code" = Return code /\
    getitem err "message" = Return message.

(** [r] is an exception whose class stands for the kind [k]. *)
Definition raises_kind {A : Type} (r : result A) (k : Spec.ErrorKind) : Prop :=
  exists e, r = Raise e /\ Spec.kind_of (exn_kind e) = Some k.

Definition is_object (v : value) : bool :=
  match v with VDict _ => true | _ => false end.

Definition is_array (v : value) : bool :=
  match v with VList _ => true | _ => false end.

(** The values an integer literal can compare equal to. *)
Definition is_number (v : value) : bool :=
  match v with VInt _ | VBool _ => true | _ => false end.

(** A service that is down: every request raises [e]. *)
Definition down (e : exn) : World :=
  {| clock_ms := 1500000000000;
     clock_date := "Fri, 14 Jul 2017 02:40:00 -0000";
     respond := fun _ _ => Raise e;
     sent := [] |}.

(** [{"error":{"code":"1101","message":"m"}}] *)
Definition string_code_text : string :=
  "{" ++ Examples.q ++ "error" ++ Examples.q ++ ":{" ++ Examples.q ++ "code"
      ++ Examples.q ++ ":" ++ Examples.q ++ "1101" ++ Examples.q ++ ","
      ++ Examples.q ++ "message" ++ Examples.q ++ ":" ++ Examples.q ++ "m"
      ++ Examples.q ++ "}}".

(** [{"error":"boom"}] *)
Definition error_string_text : string :=
  "{" ++ Examples.q ++ "error" ++ Examples.q ++ ":" ++ Examples.q ++ "boom"
      ++ Examples.q ++ "}".

(** The JSON string ["état"], whose first character takes two bytes. *)
Definition accent_text : string := Examples.q ++ "état" ++ Examples.q.

(** [{"data":21,"ts":1500000000000}] *)
Definition record_text : string :=
  "{" ++ Examples.q ++ "data" ++ Examples.q ++ ":21," ++ Examples.q ++ "ts"
      ++ Examples.q ++ ":1500000000000}".

End Laws.

(** ** Properties *)

Lemma append_empty_r (s : string) : s ++ EmptyString = s.
Proof.
  induction s as [| c s IH]; simpl; [reflexivity | now rewrite IH].
Qed.

Lemma quiet_ret {A : Type} (a : A) : quiet (ret a).
Proof. intro w; reflexivity. Qed.

Lemma quiet_raise {A : Type} (e : exn) : quiet (@raise A e).
Proof. intro w; reflexivity. Qed.

Lemma quiet_lift {A : Type} (r : result A) : quiet (lift r).
Proof. intro w; reflexivity. Qed.

Lemma quiet_bind {A B : Type} (m : M A) (k : A -> M B) :
  quiet m -> (forall a, quiet (k a)) -> quiet (bind m k).
Proof.
  intros Hm Hk w. unfold bind.
  specialize (Hm w). destruct (m w) as [[a | e] w']; simpl in Hm; subst w'.
  - apply Hk.
  - reflexivity.
Qed.

Lemma quiet_time_ms : quiet time_ms.
Proof. intro w; reflexivity. Qed.

Lemma quiet_formatdate : quiet formatdate.
Proof. intro w; reflexivity. Qed.

Create HintDb quiet.

#[local] Hint Resolve quiet_ret quiet_raise quiet_lift quiet_time_ms
  quiet_formatdate : quiet.

Ltac quiet_step :=
  match goal with
  | |- quiet (bind _ _) => apply quiet_bind; [| intro]
  | |- quiet (if ?b then _ else _) => destruct b
  | |- quiet (match ?x with _ => _ end) => destruct x
  | |- quiet _ => solve [auto with quiet]
  end.

Section ClientProperties.
Context {L : PyLib}.

Lemma sign_token (self : BBT.t) (s : string) (w : World) :
  BBT.sign self s w = (Return (Spec.token self s), w).
Proof.
  unfold BBT.sign, Spec.token, lift. cbn. now rewrite append_empty_r.
Qed.

Lemma signRequest_token (self : BBT.t) (verb uri date c_type : string)
    (c_md5 : option string) (w : World) :
  BBT.__signRequest__ self verb uri date c_type c_md5 w =
  (Return (Spec.token self
             (Spec.canonical verb (default EmptyString c_md5) c_type date uri)), w).
Proof.
  unfold BBT.__signRequest__, bind, lift. cbn.
  rewrite append_empty_r, sign_token. destruct c_md5; reflexivity.
Qed.

(** C1: the request signature is the access key, a colon and the base64
    text of the HMAC-SHA1, keyed by the secret key, of the five fields
    verb, content MD5, content type, date and uri joined by newlines in
    that order; an omitted content MD5 contributes an empty line; the
    computation issues no request and its result depends on its arguments
    only. *)
Theorem signRequest_canonical (self : BBT.t)
    (verb uri date c_type c_md5 : string) (w : World) :
  BBT.__signRequest__ self verb uri date c_type (Some c_md5) w =
    (Return (BBT.akey self ++ ":" ++
             decode (b64encode
                       (hmac_sha1 (encode (BBT.skey self))
                          (encode (verb ++ nl ++ c_md5 ++ nl ++ c_type ++ nl
                                   ++ date ++ nl ++ uri))))), w)
  /\ BBT.__signRequest__ self verb uri date c_type None w =
     BBT.__signRequest__ self verb uri date c_type (Some EmptyString) w
  /\ Spec.canonical verb c_md5 c_type date uri =
     verb ++ nl ++ c_md5 ++ nl ++ c_type ++ nl ++ date ++ nl ++ uri.
Proof.
  split; [| split].
  - rewrite signRequest_token. reflexivity.
  - now rewrite !signRequest_token.
  - reflexivity.
Qed.

Lemma auth_client_token (self : BBT.t) (sid channel : string)
    (resource : option string) (ttl : option Z) (read write : option value)
    (w : World) :
  BBT.auth_client self sid channel resource ttl read write w =
  (Return (Spec.token self
             (Spec.client_auth_string sid channel (default "*" resource)
                (default 0 ttl)
                (truthy (default (VBool false) read))
                (truthy (default (VBool false) write)))), w).
Proof.
  unfold BBT.auth_client, Spec.client_auth_string, Spec.flag, bind, lift.
  generalize (str_int (default 0 ttl)); intro t.
  generalize (default "*" resource); intro r.
  destruct (truthy (default (VBool false) read)),
           (truthy (default (VBool false) write));
    cbn; rewrite sign_token; reflexivity.
Qed.

(** C7: client-auth signing issues no request and signs exactly the
    string [<sid>:<channel>.<resource>.:ttl=<ttl>:read=<r>:write=<w>],
    the flags rendered as [true] / [false]; for the arguments
    [("sid1", "presence:chat", "*", 60, True, False)] that string is
    [sid1:presence:chat.*.:ttl=60:read=true:write=false]. *)
Theorem auth_client_signs (self : BBT.t) (sid channel resource : string)
    (ttl : Z) (read write : value) (w : World) :
  BBT.auth_client self sid channel (Some resource) (Some ttl)
                  (Some read) (Some write) w =
    (Return (BBT.akey self ++ ":" ++
             decode (b64encode
                       (hmac_sha1 (encode (BBT.skey self))
                          (encode (sid ++ ":" ++ channel ++ "." ++ resource
                                   ++ ".:ttl=" ++ str_int ttl
                                   ++ ":read=" ++ Spec.flag (truthy read)
                                   ++ ":write=" ++ Spec.flag (truthy write)))))),
     w)
  /\ BBT.auth_client self sid channel None None None None w =
     BBT.auth_client self sid channel (Some "*") (Some 0)
                     (Some (VBool false)) (Some (VBool false)) w
  /\ BBT.auth_client self "sid1" "presence:chat" (Some "*") (Some 60)
                     (Some (VBool true)) (Some (VBool false)) w =
     BBT.sign self "sid1:presence:chat.*.:ttl=60:read=true:write=false" w.
Proof.
  split; [| split].
  - rewrite auth_client_token. reflexivity.
  - now rewrite !auth_client_token.
  - rewrite auth_client_token, sign_token. reflexivity.
Qed.

(** C9: a data point turned into a record by [toJSON] and read back by
    [fromJSON] keeps its [data] and [ts]; the channel and the resource of
    the record are dropped, the rebuilt point has [None] for both. *)
Theorem fromJSON_toJSON (p : DataPoint.t) (owner : option value) (w : World) :
  DataPoint.fromJSON (DataPoint.toJSON p owner) w =
  (Return {| DataPoint.channel := VNone;
             DataPoint.resource := VNone;
             DataPoint.data := DataPoint.data p;
             DataPoint.ts := DataPoint.ts p |}, w).
Proof. reflexivity. Qed.

(** C5: [writeBulk] and [publishBulk] stop on the undefined name
    [resource] while building the endpoint: they raise [NameError] for
    every channel and data array, and issue no request. *)
Theorem bulk_raises_NameError (self : BBT.t) (channel : string)
    (data_array : value) (w : World) :
  BBT.writeBulk self channel data_array w =
    (Raise (Exn NameError "name '%s' is not defined" [VStr "resource"]), w)
  /\ BBT.publishBulk self channel data_array w =
    (Raise (Exn NameError "name '%s' is not defined" [VStr "resource"]), w).
Proof. split; reflexivity. Qed.

Lemma quiet_processResponse (self : BBT.t) (response : Z * string) :
  quiet (BBT.__processResponse__ self response).
Proof.
  unfold BBT.__processResponse__. repeat quiet_step.
Qed.

Lemma bind_return {A B : Type} (m : M A) (k : A -> M B) (w w' : World) (a : A) :
  m w = (Return a, w') -> bind m k w = k a w'.
Proof. intro H. unfold bind. now rewrite H. Qed.

Lemma bind_raise {A B : Type} (m : M A) (k : A -> M B) (w w' : World) (e : exn) :
  m w = (Raise e, w') -> bind m k w = (Raise e, w').
Proof. intro H. unfold bind. now rewrite H. Qed.

Lemma format_url (scheme host port uri : string) :
  format "%s://%s:%s%s" [scheme; host; port; uri] =
  Return (scheme ++ "://" ++ host ++ ":" ++ port ++ uri).
Proof. cbn. now rewrite append_empty_r. Qed.

Lemma format_query (uri query : string) :
  format "%s?%s" [uri; query] = Return (uri ++ "?" ++ query).
Proof. cbn. now rewrite append_empty_r. Qed.

Lemma format_path2 (a b c : string) :
  format "%s/%s/%s" [a; b; c] = Return (a ++ "/" ++ b ++ "/" ++ c).
Proof. cbn. now rewrite append_empty_r. Qed.

Lemma format_path3 (a b c d : string) :
  format "%s/%s/%s/%s" [a; b; c; d] =
  Return (a ++ "/" ++ b ++ "/" ++ c ++ "/" ++ d).
Proof. cbn. now rewrite append_empty_r. Qed.

Lemma url_http (self : BBT.t) (uri : string) (w : World) :
  (if BBT.ssl self
   then lift (format "%s://%s:%s%s"
                ["https"; BBT.hostname self; BBT.port self; uri])
   else lift (format "%s://%s:%s%s"
                ["http"; BBT.hostname self; BBT.port self; uri])) w =
  (Return (Spec.url self uri), w).
Proof.
  unfold Spec.url, lift.
  destruct (BBT.ssl self); rewrite format_url; reflexivity.
Qed.

Lemma issue_sent (rq : Request) (w : World) :
  sent (snd (issue rq w)) = (sent w ++ [rq])%list.
Proof. reflexivity. Qed.

(** A request followed by the interpretation of its response adds that
    request, and nothing else, to those sent. *)
Lemma round_trip_sent (self : BBT.t) (rq : Request) (w : World) :
  sent (snd (bind (issue rq)
               (fun r => BBT.__processResponse__ self (status_code r, text r))
               w)) = (sent w ++ [rq])%list.
Proof.
  unfold bind, issue.
  destruct (respond w (sent w) rq) as [r | e]; [| reflexivity].
  now rewrite quiet_processResponse.
Qed.

Lemma bind_ret_r {A : Type} (m : M A) (w : World) :
  bind m (fun a => ret a) w = m w.
Proof. unfold bind, ret. destruct (m w) as [[a | e] w']; reflexivity. Qed.

(** The GET helper is one round trip with [Spec.get_request]. *)
Lemma getData_run (self : BBT.t) (uri : string) (query : dict)
    (auth : option bool) (w : World) :
  BBT.__getData__ self uri query auth w =
  bind (issue (Spec.get_request self uri query (default true auth)
                 (clock_date w)))
       (fun r => BBT.__processResponse__ self (status_code r, text r)) w.
Proof.
  unfold BBT.__getData__, Spec.get_request.
  erewrite bind_return by apply url_http.
  erewrite bind_return by (unfold lift; rewrite format_query; reflexivity).
  erewrite bind_return by reflexivity.
  destruct (default true auth).
  - erewrite bind_return
      by (erewrite bind_return by apply signRequest_token; reflexivity).
    reflexivity.
  - erewrite bind_return by reflexivity.
    reflexivity.
Qed.

(** The POST helper is one round trip with [Spec.post_request]. *)
Lemma postData_run (self : BBT.t) (uri data : string) (auth : option bool)
    (w : World) :
  BBT.__postData__ self uri data auth w =
  bind (issue (Spec.post_request self uri data (default true auth)
                 (clock_date w)))
       (fun r => BBT.__processResponse__ self (status_code r, text r)) w.
Proof.
  unfold BBT.__postData__, Spec.post_request.
  erewrite bind_return by apply url_http.
  erewrite bind_return by reflexivity.
  destruct (default true auth).
  - erewrite bind_return
      by (erewrite bind_return by apply signRequest_token; reflexivity).
    reflexivity.
  - erewrite bind_return by reflexivity.
    reflexivity.
Qed.

Lemma getData_sent (self : BBT.t) (uri : string) (query : dict)
    (auth : option bool) (w : World) :
  sent (snd (BBT.__getData__ self uri query auth w)) =
  (sent w ++ [Spec.get_request self uri query (default true auth)
                (clock_date w)])%list.
Proof. rewrite getData_run. apply round_trip_sent. Qed.

Lemma postData_sent (self : BBT.t) (uri data : string) (auth : option bool)
    (w : World) :
  sent (snd (BBT.__postData__ self uri data auth w)) =
  (sent w ++ [Spec.post_request self uri data (default true auth)
                (clock_date w)])%list.
Proof. rewrite postData_run. apply round_trip_sent. Qed.

(** [read] without [sample_rate] is the GET helper on the read endpoint
    with authentication switched off. *)
Lemma read_run (self : BBT.t) (channel resource : string)
    (limit source time_range data_filter : option value) (w : World) :
  BBT.read self channel resource limit source time_range data_filter None w =
  BBT.__getData__ self
    (__readEndpoint__ ++ "/" ++ channel ++ "/" ++ resource)
    (Spec.query 1 limit source time_range data_filter) (Some false) w.
Proof.
  unfold BBT.read, Spec.query.
  erewrite bind_return by reflexivity.
  erewrite bind_return by (unfold lift; rewrite format_path2; reflexivity).
  apply bind_ret_r.
Qed.

Lemma readPublic_run (self : BBT.t) (owner channel resource : string)
    (limit source time_range data_filter : option value) (w : World) :
  BBT.readPublic self owner channel resource limit source time_range
                 data_filter None w =
  BBT.__getData__ self
    (__publicReadEndpoint__ ++ "/" ++ owner ++ "/" ++ channel ++ "/" ++ resource)
    (Spec.query 750 limit source time_range data_filter) (Some false) w.
Proof.
  unfold BBT.readPublic, Spec.query.
  erewrite bind_return by reflexivity.
  erewrite bind_return by (unfold lift; rewrite format_path3; reflexivity).
  apply bind_ret_r.
Qed.

(** A truthy [sample_rate] makes [read] evaluate the undefined name
    [sample]. *)
Lemma read_sample_rate (self : BBT.t) (channel resource : string)
    (limit source time_range data_filter : option value) (rate : value)
    (w : World) :
  truthy rate = true ->
  BBT.read self channel resource limit source time_range data_filter
           (Some rate) w =
  (Raise (Exn NameError "name '%s' is not defined" [VStr "sample"]), w).
Proof.
  intro H. unfold BBT.read. cbn [default]. rewrite H.
  erewrite bind_raise by (erewrite bind_raise by reflexivity; reflexivity).
  reflexivity.
Qed.

(** C4: [read] sends one GET to [/v1/data/read/<channel>/<resource>]
    whose query has [limit] 1 by default, but the request is not signed:
    its headers are [Content-Type] and [Date] only, with no
    [Authorization] entry. *)
Theorem read_request_unsigned (self : BBT.t) (channel resource : string)
    (limit source time_range data_filter : option value) (w : World) :
  exists rq query,
    sent (snd (BBT.read self channel resource limit source time_range
                        data_filter None w)) = (sent w ++ [rq])%list
    /\ rq_method rq = GET
    /\ rq_url rq =
       Spec.url self ("/v1/data/read/" ++ channel ++ "/" ++ resource)
    /\ rq_params rq = Some query
    /\ dict_get query "limit" = Some (default (VInt 1) limit)
    /\ rq_headers rq = [Spec.content_type; ("Date", clock_date w)]
    /\ Spec.header rq "Authorization" = None.
Proof.
  rewrite read_run, getData_sent.
  eexists. exists (Spec.query 1 limit source time_range data_filter).
  split; [reflexivity |].
  repeat split.
  unfold Spec.query.
  destruct (truthy (default VNone time_range)),
           (truthy (default VNone data_filter)); reflexivity.
Qed.

(** C6: an unauthenticated call carries no [Authorization] header; the
    GET helper and the public read send no [Content-MD5] either, while the
    POST helper called with authentication off still computes the MD5 of
    its body and sends it as [Content-MD5]. *)
Theorem unauthenticated_headers (self : BBT.t) (uri data : string)
    (query : dict) (owner channel resource : string)
    (limit source time_range data_filter : option value) (w : World) :
  (exists rq,
      sent (snd (BBT.__getData__ self uri query (Some false) w)) =
        (sent w ++ [rq])%list
      /\ Spec.header rq "Authorization" = None
      /\ Spec.header rq "Content-MD5" = None)
  /\ (exists rq,
      sent (snd (BBT.readPublic self owner channel resource limit source
                                time_range data_filter None w)) =
        (sent w ++ [rq])%list
      /\ Spec.header rq "Authorization" = None
      /\ Spec.header rq "Content-MD5" = None)
  /\ (exists rq,
      sent (snd (BBT.__postData__ self uri data (Some false) w)) =
        (sent w ++ [rq])%list
      /\ Spec.header rq "Authorization" = None
      /\ Spec.header rq "Content-MD5" =
         Some (decode (b64encode (md5 (encode data))))).
Proof.
  split; [| split].
  - rewrite getData_sent. eexists. repeat split.
  - rewrite readPublic_run, getData_sent. eexists. repeat split.
  - rewrite postData_sent. eexists. repeat split.
Qed.

Lemma write_run (self : BBT.t) (channel resource : string) (data : value)
    (ts : option value) (w : World) :
  BBT.write self channel resource data ts w =
  BBT.__postData__ self
    (__writeEndpoint__ ++ "/" ++ channel ++ "/" ++ resource)
    (json_dumps (VDict [("data", data); ("ts", Spec.stamp ts w)]))
    (Some true) w.
Proof.
  unfold BBT.write, Spec.stamp.
  destruct (truthy (default VNone ts)).
  - erewrite bind_return by reflexivity.
    erewrite bind_return by (unfold lift; rewrite format_path2; reflexivity).
    apply bind_ret_r.
  - erewrite bind_return by reflexivity.
    erewrite bind_return by (unfold lift; rewrite format_path2; reflexivity).
    apply bind_ret_r.
Qed.

Lemma publish_run (self : BBT.t) (channel resource : string) (data : value)
    (ts source : option value) (w : World) :
  BBT.publish self channel resource data ts source w =
  BBT.__postData__ self
    (__publishEndpoint__ ++ "/" ++ channel ++ "/" ++ resource)
    (json_dumps (VDict (Spec.publish_body data ts source w)))
    (Some true) w.
Proof.
  unfold BBT.publish, Spec.publish_body, Spec.stamp.
  destruct (truthy (default VNone ts)), (truthy (default VNone source)).
  all: erewrite bind_return by reflexivity.
  all: erewrite bind_return
         by (unfold lift; rewrite format_path2; reflexivity).
  all: apply bind_ret_r.
Qed.

(** C10: [write] and [publish] post a body whose [ts] is the caller's
    timestamp when that is truthy and the clock's epoch milliseconds
    otherwise; an omitted timestamp, [None] and [0] are all replaced by
    the clock. *)
Theorem write_publish_timestamp (self : BBT.t) (channel resource : string)
    (data : value) (ts source : option value) (t : Z) (w : World) :
  sent (snd (BBT.write self channel resource data ts w)) =
    (sent w ++
     [Spec.post_request self
        ("/v1/data/write/" ++ channel ++ "/" ++ resource)
        (json_dumps (VDict [("data", data); ("ts", Spec.stamp ts w)]))
        true (clock_date w)])%list
  /\ sent (snd (BBT.publish self channel resource data ts source w)) =
    (sent w ++
     [Spec.post_request self
        ("/v1/data/publish/" ++ channel ++ "/" ++ resource)
        (json_dumps (VDict (Spec.publish_body data ts source w)))
        true (clock_date w)])%list
  /\ dict_get (Spec.publish_body data ts source w) "ts" =
     Some (Spec.stamp ts w)
  /\ Spec.stamp ts w =
     (if truthy (default VNone ts) then default VNone ts
      else VInt (clock_ms w))
  /\ Spec.stamp None w = VInt (clock_ms w)
  /\ Spec.stamp (Some VNone) w = VInt (clock_ms w)
  /\ Spec.stamp (Some (VInt t)) w =
     VInt (if t =? 0 then clock_ms w else t).
Proof.
  split; [| split; [| split; [| split; [| split; [| split]]]]].
  - rewrite write_run, postData_sent. reflexivity.
  - rewrite publish_run, postData_sent. reflexivity.
  - unfold Spec.publish_body.
    destruct (truthy (default VNone source)); reflexivity.
  - reflexivity.
  - reflexivity.
  - reflexivity.
  - unfold Spec.stamp. cbn. destruct (t =? 0); reflexivity.
Qed.

Lemma table_500_agrees (status code : Z) :
  status <> 500 \/ code = 1201 ->
  Spec.table_500 status code = Spec.table status code.
Proof.
  unfold Spec.table_500. intros [H | H].
  - destruct (Z.eqb_spec status 500); [contradiction | reflexivity].
  - subst code. destruct (Z.eqb_spec status 500); [subst | reflexivity].
    reflexivity.
Qed.

Lemma processResponse_decoded (self : BBT.t) (status : Z) (text : string)
    (data : value) (w : World) :
  json_loads text = Some data ->
  status < 400 ->
  BBT.__processResponse__ self (status, text) w = (Return data, w).
Proof.
  intros Hd Hs. unfold BBT.__processResponse__. cbn [fst snd].
  rewrite Hd. erewrite bind_return by reflexivity.
  destruct (Z.ltb_spec status 400); [reflexivity | lia].
Qed.

Ltac decide_tests :=
  repeat match goal with
         | |- context [(?a =? ?b)%Z] =>
             destruct (Z.eqb_spec a b); try lia; subst
         | |- context [(?a <=? ?b)%Z] =>
             destruct (Z.leb_spec a b); try lia
         end.

Lemma processResponse_raises (self : BBT.t) (status : Z) (text : string)
    (data : value) (code : Z) (message : value) (w : World) :
  json_loads text = Some data ->
  400 <= status ->
  Spec.error_body data code message ->
  exists e,
    BBT.__processResponse__ self (status, text) w = (Raise e, w)
    /\ Spec.kind_of (exn_kind e) = Some (Spec.table_500 status code)
    /\ (exn_args e = [message]
        \/ exn_args e = [VInt status; VInt code; message]).
Proof.
  intros Hd Hs (err & He & Hc & Hm).
  unfold BBT.__processResponse__. cbn [fst snd].
  rewrite Hd. erewrite bind_return by reflexivity.
  destruct (Z.ltb_spec status 400); [lia |].
  erewrite bind_return by (unfold lift; rewrite He; reflexivity).
  erewrite bind_return by (unfold lift; rewrite Hc; reflexivity).
  erewrite bind_return by (unfold lift; rewrite He; reflexivity).
  erewrite bind_return by (unfold lift; rewrite Hm; reflexivity).
  cbn [eq_int fst snd].
  unfold Spec.table_500, Spec.table.
  decide_tests; eexists; (split; [reflexivity |]); cbn; auto.
Qed.

(** C2: a response with status below 400 yields its decoded body; from
    400 on, an error body with integer code raises the class of the kind
    the table gives for (status, code), where status 500 maps to Internal
    for every code and every pair outside the table maps to Unexpected. *)
Theorem processResponse_classifies (self : BBT.t) (status : Z)
    (text : string) (data : value) (w : World) :
  json_loads text = Some data ->
  (status < 400 ->
   BBT.__processResponse__ self (status, text) w = (Return data, w))
  /\ (400 <= status ->
      forall code message,
        Spec.error_body data code message ->
        exists e,
          BBT.__processResponse__ self (status, text) w = (Raise e, w)
          /\ Spec.kind_of (exn_kind e) = Some (Spec.table_500 status code)).
Proof.
  intro Hd. split.
  - intro Hs. now apply processResponse_decoded.
  - intros Hs code message Hb.
    destruct (processResponse_raises self status text data code message w
                Hd Hs Hb) as (e & Hr & Hk & _).
    now exists e.
Qed.

(** C3: from status 400 on, a body that is not JSON makes response
    processing raise the decoder's [ValueError]; a decoded body that is
    not an object, or whose [error] member is not an object, makes it
    raise the built-in [TypeError] of the failed indexing; a decoded
    object without [error], or whose [error] object lacks [code] or
    [message], makes it raise [KeyError] for the missing member.  Every
    decoded body without [error.code] or [error.message] falls under one
    of these cases.  All three are built-in exceptions outside the
    taxonomy, which has no class for a malformed response. *)
Theorem processResponse_malformed (self : BBT.t) (status : Z)
    (text : string) (w : World) :
  400 <= status ->
  (json_loads text = None ->
   exists e, BBT.__processResponse__ self (status, text) w = (Raise e, w)
             /\ exn_kind e = ValueError)
  /\ (forall d,
        json_loads text = Some (VDict d) ->
        dict_get d "error" = None ->
        BBT.__processResponse__ self (status, text) w =
          (Raise (Exn KeyError "%s" [VStr "error"]), w))
  /\ (forall d err,
        json_loads text = Some (VDict d) ->
        dict_get d "error" = Some (VDict err) ->
        dict_get err "code" = None ->
        BBT.__processResponse__ self (status, text) w =
          (Raise (Exn KeyError "%s" [VStr "code"]), w))
  /\ (forall d err c,
        json_loads text = Some (VDict d) ->
        dict_get d "error" = Some (VDict err) ->
        dict_get err "code" = Some c ->
        dict_get err "message" = None ->
        BBT.__processResponse__ self (status, text) w =
          (Raise (Exn KeyError "%s" [VStr "message"]), w))
  /\ (forall data,
        json_loads text = Some data ->
        Laws.is_object data = false ->
        exists e, BBT.__processResponse__ self (status, text) w = (Raise e, w)
                  /\ exn_kind e = BuiltinTypeError)
  /\ (forall d err,
        json_loads text = Some (VDict d) ->
        dict_get d "error" = Some err ->
        Laws.is_object err = false ->
        exists e, BBT.__processResponse__ self (status, text) w = (Raise e, w)
                  /\ exn_kind e = BuiltinTypeError)
  /\ (forall data,
        json_loads text = Some data ->
        (exists code message, Laws.error_member data code message)
        \/ (exists e,
               BBT.__processResponse__ self (status, text) w = (Raise e, w)
               /\ (exn_kind e = KeyError \/ exn_kind e = BuiltinTypeError)))
  /\ Spec.kind_of ValueError = None
  /\ Spec.kind_of KeyError = None
  /\ Spec.kind_of BuiltinTypeError = None
  /\ (forall c, Spec.kind_of c <> Some Spec.KMalformedResponse).
Proof.
  intro Hs.
  assert (Hlt : (status <? 400) = false) by (apply Z.ltb_ge; lia).
  assert (Herror : forall d,
             json_loads text = Some (VDict d) ->
             dict_get d "error" = None ->
             BBT.__processResponse__ self (status, text) w =
               (Raise (Exn KeyError "%s" [VStr "error"]), w)).
  { intros d Hd He. unfold BBT.__processResponse__. cbn [fst snd]. rewrite Hd.
    erewrite bind_return by reflexivity. rewrite Hlt.
    erewrite bind_raise by (unfold lift, getitem; rewrite He; reflexivity).
    reflexivity. }
  assert (Hcode : forall d err,
             json_loads text = Some (VDict d) ->
             dict_get d "error" = Some (VDict err) ->
             dict_get err "code" = None ->
             BBT.__processResponse__ self (status, text) w =
               (Raise (Exn KeyError "%s" [VStr "code"]), w)).
  { intros d err Hd He Hc. unfold BBT.__processResponse__. cbn [fst snd].
    rewrite Hd. erewrite bind_return by reflexivity. rewrite Hlt.
    erewrite bind_return by (unfold lift, getitem; rewrite He; reflexivity).
    erewrite bind_raise by (unfold lift, getitem; rewrite Hc; reflexivity).
    reflexivity. }
  assert (Hmessage : forall d err c,
             json_loads text = Some (VDict d) ->
             dict_get d "error" = Some (VDict err) ->
             dict_get err "code" = Some c ->
             dict_get err "message" = None ->
             BBT.__processResponse__ self (status, text) w =
               (Raise (Exn KeyError "%s" [VStr "message"]), w)).
  { intros d err c Hd He Hc Hm. unfold BBT.__processResponse__.
    cbn [fst snd]. rewrite Hd.
    erewrite bind_return by reflexivity. rewrite Hlt.
    erewrite bind_return by (unfold lift, getitem; rewrite He; reflexivity).
    erewrite bind_return by (unfold lift, getitem; rewrite Hc; reflexivity).
    erewrite bind_return by (unfold lift, getitem; rewrite He; reflexivity).
    erewrite bind_raise by (unfold lift, getitem; rewrite Hm; reflexivity).
    reflexivity. }
  assert (Hbody : forall data,
             json_loads text = Some data ->
             Laws.is_object data = false ->
             exists e,
               BBT.__processResponse__ self (status, text) w = (Raise e, w)
               /\ exn_kind e = BuiltinTypeError).
  { intros data Hd Hn. unfold BBT.__processResponse__. cbn [fst snd].
    rewrite Hd. erewrite bind_return by reflexivity. rewrite Hlt.
    destruct data; try discriminate;
      (eexists; split;
       [erewrite bind_raise by reflexivity; reflexivity | reflexivity]). }
  assert (Hmember : forall d err,
             json_loads text = Some (VDict d) ->
             dict_get d "error" = Some err ->
             Laws.is_object err = false ->
             exists e,
               BBT.__processResponse__ self (status, text) w = (Raise e, w)
               /\ exn_kind e = BuiltinTypeError).
  { intros d err Hd He Hn. unfold BBT.__processResponse__. cbn [fst snd].
    rewrite Hd. erewrite bind_return by reflexivity. rewrite Hlt.
    erewrite bind_return by (unfold lift, getitem; rewrite He; reflexivity).
    destruct err; try discriminate;
      (eexists; split;
       [erewrite bind_raise by reflexivity; reflexivity | reflexivity]). }
  split; [| split; [| split; [| split; [| split; [| split; [| split]]]]]].
  - intro Hd. unfold BBT.__processResponse__. cbn [fst snd]. rewrite Hd.
    eexists. split; reflexivity.
  - exact Herror.
  - exact Hcode.
  - exact Hmessage.
  - exact Hbody.
  - exact Hmember.
  - intros data Hd.
    destruct (Laws.is_object data) eqn:Ho.
    2:{ right. destruct (Hbody data Hd Ho) as (e & He & Hk).
        exists e. split; [exact He | now right]. }
    destruct data as [| | | | | d]; try discriminate.
    destruct (dict_get d "error") as [err |] eqn:He.
    2:{ right. eexists. split; [exact (Herror d Hd He) | now left]. }
    destruct (Laws.is_object err) eqn:Ho'.
    2:{ right. destruct (Hmember d err Hd He Ho') as (e & Hr & Hk).
        exists e. split; [exact Hr | now right]. }
    destruct err as [| | | | | err]; try discriminate.
    destruct (dict_get err "code") as [c |] eqn:Hc.
    2:{ right. eexists. split; [exact (Hcode d err Hd He Hc) | now left]. }
    destruct (dict_get err "message") as [m |] eqn:Hm.
    2:{ right. eexists.
        split; [exact (Hmessage d err c Hd He Hc Hm) | now left]. }
    left. exists c, m, (VDict err). unfold getitem.
    rewrite He, Hc, Hm. repeat split.
  - repeat split. intro c. destruct c; discriminate.
Qed.

Lemma getindex_first (l : list value) :
  getindex (VList l) 0 =
  match l with
  | x :: _ => Return x
  | [] => Raise (Exn IndexError "list index out of range" [])
  end.
Proof. destruct l; reflexivity. Qed.

(** C8: [recentVal] reads with [limit] 1 and, when the service answers
    below 400 with a JSON array, returns the first element of the array;
    on the empty array the indexing raises [IndexError], the built-in
    out-of-range exception. *)
Theorem recentVal_first (self : Resource.t) (status : Z) (body : string)
    (records : list value) (w : World) :
  respond w (sent w) (Spec.recent_request self w) =
    Return {| status_code := status; text := body |} ->
  status < 400 ->
  json_loads body = Some (VList records) ->
  fst (Resource.recentVal self w) =
    match records with
    | x :: _ => Return x
    | [] => Raise (Exn IndexError "list index out of range" [])
    end
  /\ sent (snd (Resource.recentVal self w)) =
     (sent w ++ [Spec.recent_request self w])%list
  /\ rq_params (Spec.recent_request self w) =
     Some [("limit", VInt 1); ("source", VStr "raw")].
Proof.
  intros Hr Hs Hd.
  set (rq := Spec.recent_request self w) in *.
  unfold Resource.recentVal.
  assert (Hread :
    BBT.read (Resource.bbt self) (Resource.channel self)
      (Resource.resource self) (Some (VInt 1)) None None None None w =
    (Return (VList records), snd (issue rq w))).
  { rewrite read_run, getData_run.
    change (bind (issue rq)
              (fun r => BBT.__processResponse__ (Resource.bbt self)
                          (status_code r, text r)) w =
            (Return (VList records), snd (issue rq w))).
    erewrite bind_return by (unfold issue; rewrite Hr; reflexivity).
    now apply processResponse_decoded. }
  erewrite bind_return by exact Hread.
  unfold lift. rewrite getindex_first. repeat split.
Qed.

End ClientProperties.

(** ** Properties of the remaining code *)

Section MoreProperties.
Context {L : PyLib}.

Lemma bounded_quiet {A : Type} (n : nat) (m : M A) :
  quiet m -> Laws.bounded n m.
Proof.
  intros Hq w. unfold quiet in Hq. rewrite !Hq. repeat split.
  exists []. split; [now rewrite app_nil_r | simpl; lia].
Qed.

Lemma bounded_bind_quiet {A B : Type} (n : nat) (m : M A) (k : A -> M B) :
  quiet m -> (forall a, Laws.bounded n (k a)) -> Laws.bounded n (bind m k).
Proof.
  intros Hq Hk w. unfold bind.
  specialize (Hq w). destruct (m w) as [[a | e] w']; simpl in Hq; subst w'.
  - apply Hk.
  - apply (bounded_quiet n (raise e)). apply quiet_raise.
Qed.

Lemma bounded_round_trip (self : BBT.t) (rq : Request) :
  Laws.bounded 1
    (bind (issue rq)
          (fun r => BBT.__processResponse__ self (status_code r, text r))).
Proof.
  intro w. unfold bind, issue.
  destruct (respond w (sent w) rq) as [r | e].
  - repeat split; try (rewrite quiet_processResponse; reflexivity).
    exists [rq]. rewrite quiet_processResponse.
    split; [reflexivity | simpl; lia].
  - cbn. repeat split. exists [rq]. split; [reflexivity | simpl; lia].
Qed.

Lemma bounded_ext {A : Type} (n : nat) (m m' : M A) :
  (forall w, m w = m' w) -> Laws.bounded n m' -> Laws.bounded n m.
Proof. intros He Hb w. rewrite He. apply Hb. Qed.

Lemma bounded_getData (self : BBT.t) (uri : string) (query : dict)
    (auth : option bool) :
  Laws.bounded 1 (BBT.__getData__ self uri query auth).
Proof.
  intro w. rewrite getData_run. apply bounded_round_trip.
Qed.

Lemma bounded_postData (self : BBT.t) (uri data : string)
    (auth : option bool) :
  Laws.bounded 1 (BBT.__postData__ self uri data auth).
Proof.
  intro w. rewrite postData_run. apply bounded_round_trip.
Qed.

Lemma quiet_load_global (name : string) : quiet (load_global name).
Proof.
  unfold load_global.
  destruct (dict_get module_globals name); [apply quiet_ret |].
  destruct (existsb _ _); [apply quiet_ret | apply quiet_raise].
Qed.

Lemma quiet_sub_globals (a b : global) : quiet (sub_globals a b).
Proof. apply quiet_raise. Qed.

Ltac bounded_step :=
  match goal with
  | |- Laws.bounded _ (BBT.__getData__ _ _ _ _) => apply bounded_getData
  | |- Laws.bounded _ (BBT.__postData__ _ _ _ _) => apply bounded_postData
  | |- Laws.bounded _ (bind _ (fun a => ret a)) =>
      eapply bounded_ext; [intro; apply bind_ret_r |]
  | |- Laws.bounded _ (bind _ _) => apply bounded_bind_quiet; [| intro]
  | |- quiet (load_global _) => apply quiet_load_global
  | |- quiet (sub_globals _ _) => apply quiet_sub_globals
  | |- quiet _ => quiet_step
  end.

(** X1: each of the six data operations sends at most one request,
    whatever its arguments and whatever the service answers, also when it
    raises; it never touches the requests sent before, the clock or the
    service. *)
Theorem operations_send_at_most_one_request (self : BBT.t)
    (owner channel resource : string) (data : value)
    (limit source time_range data_filter sample_rate ts : option value) :
  Laws.bounded 1 (BBT.readPublic self owner channel resource limit source
                    time_range data_filter sample_rate)
  /\ Laws.bounded 1 (BBT.read self channel resource limit source time_range
                       data_filter sample_rate)
  /\ Laws.bounded 1 (BBT.write self channel resource data ts)
  /\ Laws.bounded 1 (BBT.publish self channel resource data ts source)
  /\ Laws.bounded 1 (BBT.writeBulk self channel data)
  /\ Laws.bounded 1 (BBT.publishBulk self channel data).
Proof.
  repeat apply conj.
  - unfold BBT.readPublic. repeat bounded_step.
  - unfold BBT.read. repeat bounded_step.
  - unfold BBT.write. repeat bounded_step.
  - unfold BBT.publish. repeat bounded_step.
  - unfold BBT.writeBulk. repeat bounded_step.
  - unfold BBT.publishBulk. repeat bounded_step.
Qed.

(** X2: a truthy [sample_rate] makes [read] and [readPublic] evaluate
    the expression [sample-rate], whose first name is undefined: they
    raise [NameError] and send nothing. *)
Theorem sample_rate_raises_NameError (self : BBT.t)
    (owner channel resource : string)
    (limit source time_range data_filter : option value) (rate : value)
    (w : World) :
  truthy rate = true ->
  BBT.read self channel resource limit source time_range data_filter
           (Some rate) w =
    (Raise (Exn NameError "name '%s' is not defined" [VStr "sample"]), w)
  /\ BBT.readPublic self owner channel resource limit source time_range
                    data_filter (Some rate) w =
    (Raise (Exn NameError "name '%s' is not defined" [VStr "sample"]), w).
Proof.
  intro H. split.
  - unfold BBT.read. cbn [default]. rewrite H.
    erewrite bind_raise by (erewrite bind_raise by reflexivity; reflexivity).
    reflexivity.
  - unfold BBT.readPublic. cbn [default]. rewrite H.
    erewrite bind_raise by (erewrite bind_raise by reflexivity; reflexivity).
    reflexivity.
Qed.

Lemma query_members (n : Z) (limit source time_range data_filter : option value) :
  Spec.query n limit source time_range data_filter =
  ([("limit", default (VInt n) limit);
    ("source", default (VStr "raw") source)]
   ++ (if truthy (default VNone time_range)
       then [("time-range", default VNone time_range)] else [])
   ++ (if truthy (default VNone data_filter)
       then [("filter", default VNone data_filter)] else []))%list.
Proof.
  unfold Spec.query.
  destruct (truthy (default VNone time_range)),
           (truthy (default VNone data_filter)); reflexivity.
Qed.

(** X3: without [sample_rate], [readPublic] sends one unsigned GET to
    [/vi/public/data/read/<owner>/<channel>/<resource>] and [read] one to
    [/v1/data/read/<channel>/<resource>]; the query holds [limit]
    (default 750, resp. 1) and [source] (default [raw]), then [time-range]
    and [filter], each only when its argument is truthy, in that order. *)
Theorem read_requests (self : BBT.t) (owner channel resource : string)
    (limit source time_range data_filter : option value) (w : World) :
  let optional :=
    ((if truthy (default VNone time_range)
      then [("time-range", default VNone time_range)] else [])
     ++ (if truthy (default VNone data_filter)
         then [("filter", default VNone data_filter)] else []))%list in
  sent (snd (BBT.readPublic self owner channel resource limit source
                            time_range data_filter None w)) =
    (sent w ++
     [ {| rq_method := GET;
          rq_url := Spec.url self ("/vi/public/data/read/" ++ owner ++ "/"
                                     ++ channel ++ "/" ++ resource);
          rq_params :=
            Some (("limit", default (VInt 750) limit)
                  :: ("source", default (VStr "raw") source) :: optional);
          rq_data := None;
          rq_headers := [("Content-Type", "application/json");
                         ("Date", clock_date w)] |} ])%list
  /\ sent (snd (BBT.read self channel resource limit source time_range
                         data_filter None w)) =
    (sent w ++
     [ {| rq_method := GET;
          rq_url := Spec.url self ("/v1/data/read/" ++ channel ++ "/"
                                     ++ resource);
          rq_params :=
            Some (("limit", default (VInt 1) limit)
                  :: ("source", default (VStr "raw") source) :: optional);
          rq_data := None;
          rq_headers := [("Content-Type", "application/json");
                         ("Date", clock_date w)] |} ])%list.
Proof.
  cbv zeta. split.
  - rewrite readPublic_run, getData_sent, query_members. reflexivity.
  - rewrite read_run, getData_sent, query_members. reflexivity.
Qed.

(** X4: every request of the POST helper carries the body it was given,
    the base64 MD5 of that body as [Content-MD5], the JSON content type
    and the clock's date; when authentication is on (the default) its
    [Authorization] is the signature of exactly these header values and
    the uri, so the receiver can recompute it from the request. *)
Theorem post_signed_over_its_headers (self : BBT.t) (uri data : string)
    (auth : option bool) (w : World) :
  exists rq,
    sent (snd (BBT.__postData__ self uri data auth w)) = (sent w ++ [rq])%list
    /\ rq_method rq = POST
    /\ rq_url rq = Spec.url self uri
    /\ rq_params rq = None
    /\ rq_data rq = Some data
    /\ Spec.header rq "Content-MD5" =
       Some (decode (b64encode (md5 (encode data))))
    /\ Spec.header rq "Content-Type" = Some "application/json"
    /\ Spec.header rq "Date" = Some (clock_date w)
    /\ Spec.header rq "Authorization" =
       (if default true auth
        then Some (BBT.akey self ++ ":" ++
                   decode (b64encode
                     (hmac_sha1 (encode (BBT.skey self))
                        (encode ("POST" ++ nl
                                 ++ decode (b64encode (md5 (encode data)))
                                 ++ nl ++ "application/json" ++ nl
                                 ++ clock_date w ++ nl ++ uri)))))
        else None).
Proof.
  rewrite postData_sent. eexists. split; [reflexivity |].
  unfold Spec.post_request, Spec.header.
  destruct (default true auth); repeat split.
Qed.

(** X5: every request of the GET helper has the query as parameters and
    no body and no [Content-MD5]; when authentication is on (the default)
    its [Authorization] signs the uri followed by [?] and the encoded
    query, with an empty content-MD5 line, while the url requested is the
    one of the bare uri. *)
Theorem get_signed_with_query (self : BBT.t) (uri : string) (query : dict)
    (auth : option bool) (w : World) :
  exists rq,
    sent (snd (BBT.__getData__ self uri query auth w)) = (sent w ++ [rq])%list
    /\ rq_method rq = GET
    /\ rq_url rq = Spec.url self uri
    /\ rq_params rq = Some query
    /\ rq_data rq = None
    /\ Spec.header rq "Content-MD5" = None
    /\ Spec.header rq "Content-Type" = Some "application/json"
    /\ Spec.header rq "Date" = Some (clock_date w)
    /\ Spec.header rq "Authorization" =
       (if default true auth
        then Some (BBT.akey self ++ ":" ++
                   decode (b64encode
                     (hmac_sha1 (encode (BBT.skey self))
                        (encode ("GET" ++ nl ++ nl ++ "application/json" ++ nl
                                 ++ clock_date w ++ nl ++ uri ++ "?"
                                 ++ urlencode query)))))
        else None).
Proof.
  rewrite getData_sent. eexists. split; [reflexivity |].
  unfold Spec.get_request, Spec.header.
  destruct (default true auth); repeat split.
Qed.

(** X6: the body is decoded before the status is looked at: a body that
    is not JSON makes response processing raise [ValueError] for every
    status, successful ones included. *)
Theorem undecodable_body_raises_ValueError (self : BBT.t) (status : Z)
    (body : string) (w : World) :
  json_loads body = None ->
  exists e,
    BBT.__processResponse__ self (status, body) w = (Raise e, w)
    /\ exn_kind e = ValueError.
Proof.
  intro Hd. unfold BBT.__processResponse__. cbn [fst snd]. rewrite Hd.
  eexists. split; reflexivity.
Qed.

(** X7: from status 400 on, a decoded body that is not an object, or
    whose [error] member is not an object, makes response processing
    raise the built-in [TypeError] of the failed indexing. *)
Theorem unsubscriptable_body_raises_TypeError (self : BBT.t) (status : Z)
    (body : string) (data : value) (w : World) :
  400 <= status ->
  json_loads body = Some data ->
  Laws.is_object data = false
  \/ (exists err, getitem data "error" = Return err
                  /\ Laws.is_object err = false) ->
  exists e,
    BBT.__processResponse__ self (status, body) w = (Raise e, w)
    /\ exn_kind e = BuiltinTypeError.
Proof.
  intros Hs Hd H.
  assert (Hlt : (status <? 400) = false) by (apply Z.ltb_ge; lia).
  unfold BBT.__processResponse__. cbn [fst snd]. rewrite Hd.
  erewrite bind_return by reflexivity. rewrite Hlt.
  destruct H as [Hn | (err & He & Hn)].
  - destruct data; try discriminate;
      (eexists; split;
       [erewrite bind_raise by reflexivity; reflexivity | reflexivity]).
  - erewrite bind_return by (unfold lift; rewrite He; reflexivity).
    destruct err; try discriminate;
      (eexists; split;
       [erewrite bind_raise by reflexivity; reflexivity | reflexivity]).
Qed.

Lemma eq_int_not_number (v : value) (n : Z) :
  Laws.is_number v = false -> eq_int v n = false.
Proof. destruct v; try discriminate; reflexivity. Qed.

(** X8: an error code that is not a number (a JSON string such as
    ["1101"], [null], an array, an object) matches no row of the table:
    the error raised is Internal for status 500 and Unexpected for every
    other status from 400 on, and it carries status, code and message. *)
Theorem non_numeric_code_is_unexpected (self : BBT.t) (status : Z)
    (body : string) (data code message : value) (w : World) :
  400 <= status ->
  json_loads body = Some data ->
  Laws.error_member data code message ->
  Laws.is_number code = false ->
  BBT.__processResponse__ self (status, body) w =
    (Raise (Exn (if status =? 500 then InternalError else UnexpectedError)
                "Status: %s; Code %s; Message: %s"
                [VInt status; code; message]), w).
Proof.
  intros Hs Hd (err & He & Hc & Hm) Hn.
  assert (Hlt : (status <? 400) = false) by (apply Z.ltb_ge; lia).
  unfold BBT.__processResponse__. cbn [fst snd]. rewrite Hd.
  erewrite bind_return by reflexivity. rewrite Hlt.
  erewrite bind_return by (unfold lift; rewrite He; reflexivity).
  erewrite bind_return by (unfold lift; rewrite Hc; reflexivity).
  erewrite bind_return by (unfold lift; rewrite He; reflexivity).
  erewrite bind_return by (unfold lift; rewrite Hm; reflexivity).
  rewrite !(eq_int_not_number code _ Hn). cbn [fst snd].
  destruct (Z.eqb_spec status 400); [subst; reflexivity |].
  destruct (Z.eqb_spec status 405); [subst; reflexivity |].
  destruct (Z.eqb_spec status 500); [reflexivity |].
  destruct (Z.eqb_spec status 404); reflexivity.
Qed.

(** X9: whatever the status and the body, response processing leaves the
    world as it is, whether it returns or raises, and the exception it
    raises, if any, is never [UsageLimitError], [IndexError], [NameError]
    or a transport exception. *)
Theorem processResponse_never_raises (self : BBT.t) (response : Z * string)
    (w : World) :
  snd (BBT.__processResponse__ self response w) = w
  /\ raised (fst (BBT.__processResponse__ self response w))
     <> Some UsageLimitError
  /\ raised (fst (BBT.__processResponse__ self response w))
     <> Some IndexError
  /\ raised (fst (BBT.__processResponse__ self response w))
     <> Some NameError
  /\ raised (fst (BBT.__processResponse__ self response w))
     <> Some RequestException.
Proof.
  split; [apply quiet_processResponse |].
  unfold BBT.__processResponse__, bind, lift, ret, raise.
  destruct (json_loads (snd response)) as [data |]; cbn [fst snd];
    [| repeat split; discriminate].
  destruct (fst response <? 400); cbn [fst snd];
    [repeat split; discriminate |].
  destruct (getitem data "error") as [err | e1] eqn:He; cbn [fst snd].
  2:{ destruct data; cbn in He;
        try (injection He as <-; repeat split; discriminate).
      destruct (dict_get d "error"); [discriminate |].
      injection He as <-; repeat split; discriminate. }
  destruct (getitem err "code") as [code | e1] eqn:Hc; cbn [fst snd].
  2:{ destruct err; cbn in Hc;
        try (injection Hc as <-; repeat split; discriminate).
      destruct (dict_get d "code"); [discriminate |].
      injection Hc as <-; repeat split; discriminate. }
  destruct (getitem err "message") as [msg | e1] eqn:Hm; cbn [fst snd].
  2:{ destruct err; cbn in Hm;
        try (injection Hm as <-; repeat split; discriminate).
      destruct (dict_get d "message"); [discriminate |].
      injection Hm as <-; repeat split; discriminate. }
  repeat match goal with
         | |- context [if ?b then _ else _] => destruct b
         end;
    cbn [fst snd]; repeat split; discriminate.
Qed.

Lemma getData_answered (self : BBT.t) (uri : string) (query : dict)
    (auth : option bool) (w : World) (r : Response) :
  (forall rq, respond w (sent w) rq = Return r) ->
  exists w',
    BBT.__getData__ self uri query auth w =
    BBT.__processResponse__ self (status_code r, text r) w'.
Proof.
  intro H. rewrite getData_run. eexists.
  erewrite bind_return by (unfold issue; rewrite H; reflexivity).
  reflexivity.
Qed.

Lemma postData_answered (self : BBT.t) (uri data : string)
    (auth : option bool) (w : World) (r : Response) :
  (forall rq, respond w (sent w) rq = Return r) ->
  exists w',
    BBT.__postData__ self uri data auth w =
    BBT.__processResponse__ self (status_code r, text r) w'.
Proof.
  intro H. rewrite postData_run. eexists.
  erewrite bind_return by (unfold issue; rewrite H; reflexivity).
  reflexivity.
Qed.

Lemma getData_failed (self : BBT.t) (uri : string) (query : dict)
    (auth : option bool) (w : World) (e : exn) :
  (forall rq, respond w (sent w) rq = Raise e) ->
  fst (BBT.__getData__ self uri query auth w) = Raise e.
Proof.
  intro H. rewrite getData_run.
  erewrite bind_raise by (unfold issue; rewrite H; reflexivity).
  reflexivity.
Qed.

Lemma postData_failed (self : BBT.t) (uri data : string)
    (auth : option bool) (w : World) (e : exn) :
  (forall rq, respond w (sent w) rq = Raise e) ->
  fst (BBT.__postData__ self uri data auth w) = Raise e.
Proof.
  intro H. rewrite postData_run.
  erewrite bind_raise by (unfold issue; rewrite H; reflexivity).
  reflexivity.
Qed.

Ltac answered Hr :=
  match goal with
  | |- context [BBT.__getData__ ?s ?u ?q ?a ?w] =>
      destruct (getData_answered s u q a w _ Hr) as [? ->]
  | |- context [BBT.__postData__ ?s ?u ?d ?a ?w] =>
      destruct (postData_answered s u d a w _ Hr) as [? ->]
  end.

(** X10: when the service answers with a status below 400 and a JSON
    body, [readPublic], [read], [write] and [publish] all return the
    decoded body, unchanged. *)
Theorem operations_return_decoded_body (self : BBT.t)
    (owner channel resource : string) (v : value)
    (limit source time_range data_filter ts : option value)
    (status : Z) (body : string) (data : value) (w : World) :
  (forall rq, respond w (sent w) rq =
              Return {| status_code := status; text := body |}) ->
  status < 400 ->
  json_loads body = Some data ->
  fst (BBT.readPublic self owner channel resource limit source time_range
                      data_filter None w) = Return data
  /\ fst (BBT.read self channel resource limit source time_range
                   data_filter None w) = Return data
  /\ fst (BBT.write self channel resource v ts w) = Return data
  /\ fst (BBT.publish self channel resource v ts source w) = Return data.
Proof.
  intros Hr Hs Hd. repeat split.
  - rewrite readPublic_run.
    answered Hr.
    cbn [status_code text]. now rewrite (processResponse_decoded _ _ _ data).
  - rewrite read_run.
    answered Hr.
    cbn [status_code text]. now rewrite (processResponse_decoded _ _ _ data).
  - rewrite write_run.
    answered Hr.
    cbn [status_code text]. now rewrite (processResponse_decoded _ _ _ data).
  - rewrite publish_run.
    answered Hr.
    cbn [status_code text]. now rewrite (processResponse_decoded _ _ _ data).
Qed.

Lemma processResponse_kind (self : BBT.t) (status : Z) (body : string)
    (data : value) (code : Z) (message : value) (w : World) :
  json_loads body = Some data ->
  400 <= status ->
  Spec.error_body data code message ->
  Laws.raises_kind (fst (BBT.__processResponse__ self (status, body) w))
                   (Spec.table_500 status code).
Proof.
  intros Hd Hs Hb.
  destruct (processResponse_raises self status body data code message w
              Hd Hs Hb) as (e & Hr & Hk & _).
  exists e. now rewrite Hr.
Qed.

(** X11: when the service answers with a status from 400 on and an error
    body, [readPublic], [read], [write], [publish] and [recentVal] all
    raise the error of the kind the table gives for the status and the
    code; [recentVal] does not reach its indexing. *)
Theorem operations_raise_classified_error (self : BBT.t)
    (handle : Resource.t) (owner channel resource : string) (v : value)
    (limit source time_range data_filter ts : option value)
    (status : Z) (body : string) (data : value) (code : Z) (message : value)
    (w : World) :
  (forall rq, respond w (sent w) rq =
              Return {| status_code := status; text := body |}) ->
  400 <= status ->
  json_loads body = Some data ->
  Spec.error_body data code message ->
  Laws.raises_kind
    (fst (BBT.readPublic self owner channel resource limit source time_range
                         data_filter None w))
    (Spec.table_500 status code)
  /\ Laws.raises_kind
       (fst (BBT.read self channel resource limit source time_range
                      data_filter None w))
       (Spec.table_500 status code)
  /\ Laws.raises_kind (fst (BBT.write self channel resource v ts w))
                      (Spec.table_500 status code)
  /\ Laws.raises_kind (fst (BBT.publish self channel resource v ts source w))
                      (Spec.table_500 status code)
  /\ Laws.raises_kind (fst (Resource.recentVal handle w))
                      (Spec.table_500 status code).
Proof.
  intros Hr Hs Hd Hb. repeat apply conj.
  - rewrite readPublic_run.
    answered Hr.
    now apply (processResponse_kind _ _ _ data _ message).
  - rewrite read_run.
    answered Hr.
    now apply (processResponse_kind _ _ _ data _ message).
  - rewrite write_run.
    answered Hr.
    now apply (processResponse_kind _ _ _ data _ message).
  - rewrite publish_run.
    answered Hr.
    now apply (processResponse_kind _ _ _ data _ message).
  - unfold Resource.recentVal.
    assert (Hk : Laws.raises_kind
                   (fst (BBT.read (Resource.bbt handle)
                           (Resource.channel handle)
                           (Resource.resource handle) (Some (VInt 1)) None
                           None None None w))
                   (Spec.table_500 status code)).
    { rewrite read_run.
      answered Hr.
      now apply (processResponse_kind _ _ _ data _ message). }
    destruct Hk as (e & He & Hk). exists e. split; [| exact Hk].
    unfold bind.
    destruct (BBT.read _ _ _ _ _ _ _ _ w) as [[x | e'] w']; cbn in He |- *;
      [discriminate | exact He].
Qed.

(** X12: when the transport raises, [readPublic], [read], [write],
    [publish] and [recentVal] raise that very exception: nothing is caught
    or translated. *)
Theorem transport_exception_propagates (self : BBT.t) (handle : Resource.t)
    (owner channel resource : string) (v : value)
    (limit source time_range data_filter ts : option value)
    (e : exn) (w : World) :
  (forall rq, respond w (sent w) rq = Raise e) ->
  fst (BBT.readPublic self owner channel resource limit source time_range
                      data_filter None w) = Raise e
  /\ fst (BBT.read self channel resource limit source time_range
                   data_filter None w) = Raise e
  /\ fst (BBT.write self channel resource v ts w) = Raise e
  /\ fst (BBT.publish self channel resource v ts source w) = Raise e
  /\ fst (Resource.recentVal handle w) = Raise e.
Proof.
  intro Hr. repeat apply conj.
  - rewrite readPublic_run. now apply getData_failed.
  - rewrite read_run. now apply getData_failed.
  - rewrite write_run. now apply postData_failed.
  - rewrite publish_run. now apply postData_failed.
  - unfold Resource.recentVal, bind.
    pose proof (getData_failed (Resource.bbt handle)
                  (__readEndpoint__ ++ "/" ++ Resource.channel handle ++ "/"
                     ++ Resource.resource handle)
                  (Spec.query 1 (Some (VInt 1)) None None None) (Some false)
                  w e Hr) as H.
    rewrite <- read_run in H.
    destruct (BBT.read _ _ _ _ _ _ _ _ w) as [[x | e'] w']; cbn in H |- *;
      [discriminate | exact H].
Qed.

(** X13: a handle's [read] with an owner looks up [publicRead] on the
    client, which has no such attribute (its method is [readPublic]): the
    call ends with [AttributeError] and sends nothing. *)
Theorem Resource_read_owner_AttributeError (self : Resource.t)
    (owner : string)
    (limit source time_range data_filter sample_rate : option value)
    (w : World) :
  owner <> EmptyString ->
  Resource.read self limit (Some owner) source time_range data_filter
                sample_rate w =
  (Attr.AttributeError "publicRead", w).
Proof.
  intro H. unfold Resource.read. cbn [truthy].
  destruct (String.eqb_spec owner EmptyString) as [E | _]; [contradiction |].
  reflexivity.
Qed.

(** X14: a handle's [read] without owner (or with the empty owner) sends
    one unsigned GET to the read endpoint of its channel and resource with
    [limit] (default 750), [source] (default [live]) and, when truthy,
    [time-range]; [data_filter] and [sample_rate] are dropped, whatever
    they are. *)
Theorem Resource_read_request (self : Resource.t)
    (limit source time_range data_filter sample_rate : option value)
    (w : World) :
  sent (snd (Resource.read self limit None source time_range data_filter
                           sample_rate w)) =
    (sent w ++
     [ {| rq_method := GET;
          rq_url := Spec.url (Resource.bbt self)
                      ("/v1/data/read/" ++ Resource.channel self ++ "/"
                         ++ Resource.resource self);
          rq_params :=
            Some (("limit", default (VInt 750) limit)
                  :: ("source", default (VStr "live") source)
                  :: (if truthy (default VNone time_range)
                      then [("time-range", default VNone time_range)]
                      else []));
          rq_data := None;
          rq_headers := [("Content-Type", "application/json");
                         ("Date", clock_date w)] |} ])%list
  /\ Resource.read self limit (Some EmptyString) source time_range
                   data_filter sample_rate w =
     Resource.read self limit None source time_range data_filter
                   sample_rate w.
Proof.
  split; [| reflexivity].
  unfold Resource.read. cbn [truthy].
  pose proof (getData_sent (Resource.bbt self)
                (__readEndpoint__ ++ "/" ++ Resource.channel self ++ "/"
                   ++ Resource.resource self)
                (Spec.query 1 (Some (default (VInt 750) limit))
                   (Some (default (VStr "live") source))
                   (Some (default VNone time_range)) None)
                (Some false) w) as H.
  rewrite <- read_run in H.
  destruct (BBT.read _ _ _ _ _ _ _ _ w) as [r w']. cbn [snd] in *.
  rewrite H, query_members. cbn [default truthy app].
  destruct (truthy (default VNone time_range)); reflexivity.
Qed.

(** X15: a handle's [write] and [publish] send the signed POST of the
    client's [write] and [publish] for the handle's channel and resource;
    the body of a publish through a handle never has a [source] member. *)
Theorem Resource_write_publish_requests (self : Resource.t) (data : value)
    (ts : option value) (w : World) :
  sent (snd (Resource.write self data ts w)) =
    (sent w ++
     [Spec.post_request (Resource.bbt self)
        ("/v1/data/write/" ++ Resource.channel self ++ "/"
           ++ Resource.resource self)
        (json_dumps (VDict [("data", data); ("ts", Spec.stamp ts w)]))
        true (clock_date w)])%list
  /\ sent (snd (Resource.publish self data ts w)) =
    (sent w ++
     [Spec.post_request (Resource.bbt self)
        ("/v1/data/publish/" ++ Resource.channel self ++ "/"
           ++ Resource.resource self)
        (json_dumps (VDict [("data", data); ("ts", Spec.stamp ts w)]))
        true (clock_date w)])%list.
Proof.
  split.
  - unfold Resource.write. rewrite write_run, postData_sent.
    destruct ts; reflexivity.
  - unfold Resource.publish. rewrite publish_run, postData_sent.
    destruct ts; reflexivity.
Qed.

Lemma getindex_first_char (s : string) :
  getindex (VStr s) 0 =
  match s with
  | String c _ => Return (VStr (String.substring 0 (utf8_width c) s))
  | EmptyString => Raise (Exn IndexError "string index out of range" [])
  end.
Proof. destruct s; reflexivity. Qed.

(** X16: [recentVal] indexes whatever the body decodes to: on a JSON
    object it raises [KeyError], on [null], a boolean or a number the
    built-in [TypeError], and on a JSON string it returns the first
    character, that is the whole UTF-8 sequence the string starts with
    (or raises [IndexError] on the empty string). *)
Theorem recentVal_not_an_array (self : Resource.t) (status : Z)
    (body : string) (data : value) (w : World) :
  (forall rq, respond w (sent w) rq =
              Return {| status_code := status; text := body |}) ->
  status < 400 ->
  json_loads body = Some data ->
  Laws.is_array data = false ->
  fst (Resource.recentVal self w) =
    match data with
    | VDict _ => Raise (Exn KeyError "%s" [VInt 0])
    | VStr (String c rest) =>
        Return (VStr (String.substring 0 (utf8_width c) (String c rest)))
    | VStr EmptyString =>
        Raise (Exn IndexError "string index out of range" [])
    | _ => Raise (Exn BuiltinTypeError "object is not subscriptable" [])
    end.
Proof.
  intros Hr Hs Hd Ha. unfold Resource.recentVal.
  assert (Hread : exists w',
    BBT.read (Resource.bbt self) (Resource.channel self)
      (Resource.resource self) (Some (VInt 1)) None None None None w =
    (Return data, w')).
  { rewrite read_run. answered Hr. eexists.
    now apply processResponse_decoded. }
  destruct Hread as [w' Hread].
  erewrite bind_return by exact Hread.
  unfold lift. cbn [fst].
  destruct data as [| | | s | |]; try discriminate; try reflexivity.
  rewrite getindex_first_char. destruct s; reflexivity.
Qed.

(** X17: [fromJSON] on a record without [data] raises [KeyError] for
    [data], also when [ts] is missing too; on a record with [data] but
    without [ts] it raises [KeyError] for [ts]. *)
Theorem fromJSON_missing_member (d : Py.dict) (w : World) :
  dict_get d "data" = None \/ dict_get d "ts" = None ->
  DataPoint.fromJSON (VDict d) w =
  (Raise (Exn KeyError "%s"
            [VStr (match dict_get d "data" with
                   | None => "data"
                   | Some _ => "ts"
                   end)]), w).
Proof.
  intro H. unfold DataPoint.fromJSON, bind, lift, getitem.
  destruct (dict_get d "data") as [x |]; [| reflexivity].
  destruct H as [H | H]; [discriminate |]. rewrite H. reflexivity.
Qed.

Lemma dict_get_set_other {A : Type} (d : list (string * A)) (k k' : string)
    (v : A) :
  k <> k' -> dict_get (dict_set d k' v) k = dict_get d k.
Proof.
  intro Hk. induction d as [| [k0 v0] d IH]; cbn.
  - destruct (String.eqb_spec k' k); [congruence | reflexivity].
  - destruct (String.eqb_spec k0 k'); cbn.
    + subst k0. destruct (String.eqb_spec k' k); [congruence | reflexivity].
    + destruct (String.eqb_spec k0 k); [reflexivity | exact IH].
Qed.

(** X18: [fromJSON] reads the members [data] and [ts] only: setting any
    other member of the record (an echoed [channel], [resource] or
    [owner]) does not change its result. *)
Theorem fromJSON_ignores_other_members (d : Py.dict) (k : string)
    (v : value) (w : World) :
  k <> "data" ->
  k <> "ts" ->
  DataPoint.fromJSON (VDict (dict_set d k v)) w =
  DataPoint.fromJSON (VDict d) w.
Proof.
  intros H1 H2. unfold DataPoint.fromJSON, bind, lift, getitem.
  rewrite !dict_get_set_other by congruence. reflexivity.
Qed.

(** X19: a record read by [fromJSON] and written back by [toJSON] keeps
    its [data] and [ts]; its [channel] and [resource] come back as [None]
    and its [owner] as the one given to [toJSON], whatever the record
    held. *)
Theorem toJSON_fromJSON (d : Py.dict) (x t : value) (owner : option value)
    (w : World) :
  dict_get d "data" = Some x ->
  dict_get d "ts" = Some t ->
  bind (DataPoint.fromJSON (VDict d))
       (fun p => ret (DataPoint.toJSON p owner)) w =
  (Return (VDict [("owner", default VNone owner); ("channel", VNone);
                  ("resource", VNone); ("data", x); ("ts", t)]), w).
Proof.
  intros Hx Ht.
  unfold DataPoint.fromJSON, DataPoint.toJSON, bind, lift, ret, getitem.
  rewrite Hx, Ht. reflexivity.
Qed.

(** X20: a client made by the constructor sends its requests to
    [<scheme>://<hostname>:<port><uri>], where the scheme is [https] only
    when [ssl] is given as true and host and port default to
    [api.beebotte.com] and [80]; the query of a GET is not part of that
    url. *)
Theorem constructor_fixes_url (akey skey : string)
    (hostname port : option string) (ssl : option bool) (uri data : string)
    (query : Py.dict) (auth : option bool) (w : World) :
  let self := BBT.__init__ akey skey hostname port ssl in
  let url := (if default false ssl then "https" else "http") ++ "://"
             ++ default "api.beebotte.com" hostname ++ ":"
             ++ default "80" port ++ uri in
  map rq_url (sent (snd (BBT.__getData__ self uri query auth w))) =
    (map rq_url (sent w) ++ [url])%list
  /\ map rq_url (sent (snd (BBT.__postData__ self uri data auth w))) =
    (map rq_url (sent w) ++ [url])%list.
Proof.
  cbv zeta. split.
  - rewrite getData_sent, map_app. reflexivity.
  - rewrite postData_sent, map_app. reflexivity.
Qed.

End MoreProperties.

(** ** The model on concrete inputs, with the reference library *)

#[local] Existing Instance Ref.lib.

Import Examples.

(** The reference digests reproduce the published test vectors. *)
Example sha1_abc :
  Ref.hex (Ref.sha1 (encode "abc")) =
  "a9993e364706816aba3e25717850c26c9cd0d89d".
Proof. vm_compute. reflexivity. Qed.

Example md5_abc :
  Ref.hex (Ref.md5 (encode "abc")) = "900150983cd24fb0d6963f7d28e17f72".
Proof. vm_compute. reflexivity. Qed.

Example hmac_sha1_rfc2202 :
  Ref.hex (Ref.hmac_sha1 (encode "Jefe")
             (encode "what do ya want for nothing?")) =
  "effcdf6ae5eb2fa2d27416d5f184df9c259a7c79".
Proof. vm_compute. reflexivity. Qed.

Example b64encode_rfc4648 :
  decode (Ref.b64encode (encode "foobar")) = "Zm9vYmFy"
  /\ decode (Ref.b64encode (encode "fooba")) = "Zm9vYmE="
  /\ decode (Ref.b64encode (encode "foob")) = "Zm9vYg==".
Proof. vm_compute. repeat split. Qed.

Example loads_dumps_error_text :
  Ref.json_loads (error_text 1305) =
    Some (VDict [("error", VDict [("code", VInt 1305); ("message", VStr "m")])])
  /\ Ref.json_dumps
       (VDict [("error", VDict [("code", VInt 1305); ("message", VStr "m")])]) =
     error_text 1305.
Proof. vm_compute. split; reflexivity. Qed.

(** The string to sign of the specification's example. *)
Example canonical_example :
  Spec.canonical "POST" "abc" "application/json" "D" "/v1/data/write/c/r" =
  "POST" ++ nl ++ "abc" ++ nl ++ "application/json" ++ nl ++ "D" ++ nl
    ++ "/v1/data/write/c/r".
Proof. reflexivity. Qed.

Example sign_example :
  fst (BBT.auth_client client "sid1" "presence:chat" (Some "*") (Some 60)
         (Some (VBool true)) (Some (VBool false)) (world 200 "[]")) =
  Return "ak:iGyRqsH3ud+/5QKT4aGlwO5HUjo=".
Proof. vm_compute. reflexivity. Qed.

(** The four cases the specification lists for response processing. *)
Example classify_examples :
  raised (fst (BBT.__processResponse__ client (400, error_text 1401)
                 (world 200 "[]"))) = Some ParameterError
  /\ raised (fst (BBT.__processResponse__ client (404, error_text 1305)
                    (world 200 "[]"))) = Some AlreadyExistError
  /\ raised (fst (BBT.__processResponse__ client (400, error_text 9999)
                    (world 200 "[]"))) = Some UnexpectedError
  /\ fst (BBT.__processResponse__ client (200, one_record_text)
            (world 200 "[]")) =
     Return (VList [VDict [("data", VInt 21); ("ts", VInt 1500000000000)]]).
Proof. vm_compute. repeat split. Qed.

(** What [read], [write] with timestamp 0 and [writeBulk] do for the
    example client. *)
Example read_example :
  sent (snd (BBT.read client "c" "r" None None None None None
               (world 200 one_record_text))) =
  [ {| rq_method := GET;
       rq_url := "http://api.beebotte.com:80/v1/data/read/c/r";
       rq_params := Some [("limit", VInt 1); ("source", VStr "raw")];
       rq_data := None;
       rq_headers := [("Content-Type", "application/json");
                      ("Date", "Fri, 14 Jul 2017 02:40:00 -0000")] |} ].
Proof. vm_compute. reflexivity. Qed.

Example write_example :
  map rq_data
      (sent (snd (BBT.write client "c" "r" (VInt 1) (Some (VInt 0))
                    (world 200 "true")))) =
  [ Some ("{" ++ q ++ "data" ++ q ++ ":1," ++ q ++ "ts" ++ q
              ++ ":1500000000000}") ]
  /\ map (fun rq => Spec.header rq "Authorization")
         (sent (snd (BBT.write client "c" "r" (VInt 1) (Some (VInt 0))
                       (world 200 "true")))) =
     [ Some "ak:xsujJo/bmOksywkvJg0++poQJoc=" ].
Proof. vm_compute. split; reflexivity. Qed.

Example writeBulk_example :
  raised (fst (BBT.writeBulk client "c"
                 (VList [VDict [("resource", VStr "r"); ("data", VInt 1)]])
                 (world 200 "true"))) = Some NameError.
Proof. vm_compute. reflexivity. Qed.

(** C2, counterexample: status 500 with the unknown code 9999 raises
    [InternalError], not the class of the kind the specification's table
    gives for that pair. *)
Lemma status_500_unknown_code_is_internal :
  ~ (exists e,
        fst (BBT.__processResponse__ client (500, error_text 9999)
               (world 200 "[]")) = Raise e
        /\ Spec.kind_of (exn_kind e) = Some (Spec.table 500 9999)).
Proof.
  intros (e & He & Hk). vm_compute in He.
  injection He as <-. vm_compute in Hk. discriminate.
Qed.

(** C3, counterexample: status 400 with the body [{}] raises [KeyError],
    which is not a malformed-response failure. *)
Lemma missing_error_raises_KeyError :
  ~ (exists e,
        fst (BBT.__processResponse__ client (400, "{}") (world 200 "[]")) =
          Raise e
        /\ Spec.kind_of (exn_kind e) = Some Spec.KMalformedResponse).
Proof.
  intros (e & He & Hk). vm_compute in He.
  injection He as <-. vm_compute in Hk. discriminate.
Qed.

(** C6, counterexample: the POST helper called with authentication off
    sends a request that has a [Content-MD5] header. *)
Lemma unauthenticated_post_sends_md5 :
  ~ (forall rq,
        In rq (sent (snd (BBT.__postData__ client "/v1/data/write/c/r" "{}"
                            (Some false) (world 200 "true")))) ->
        Spec.header rq "Authorization" = None
        /\ Spec.header rq "Content-MD5" = None).
Proof.
  intro H.
  specialize (H (Spec.post_request client "/v1/data/write/c/r" "{}" false
                   (clock_date (world 200 "true")))).
  destruct H as [_ H]; [rewrite postData_sent; left; reflexivity |].
  vm_compute in H. discriminate.
Qed.

(** C8, counterexample: on the empty array [recentVal] raises
    [IndexError], not the not-found error. *)
Lemma recentVal_empty_raises_IndexError :
  ~ (exists e,
        fst (Resource.recentVal handle (world 200 "[]")) = Raise e
        /\ Spec.kind_of (exn_kind e) = Some Spec.KNotFound).
Proof.
  intros (e & He & Hk). vm_compute in He.
  injection He as <-. vm_compute in Hk. discriminate.
Qed.

(** C2, witness: status 404 with code 1305. *)
Lemma processResponse_classifies_witness :
  json_loads (error_text 1305) =
    Some (VDict [("error", VDict [("code", VInt 1305); ("message", VStr "m")])])
  /\ 400 <= 404
  /\ exists e,
      BBT.__processResponse__ client (404, error_text 1305) (world 200 "[]") =
        (Raise e, world 200 "[]")
      /\ Spec.kind_of (exn_kind e) = Some Spec.KAlreadyExist.
Proof.
  assert (Hd : json_loads (error_text 1305) =
               Some (VDict [("error", VDict [("code", VInt 1305);
                                             ("message", VStr "m")])]))
    by (vm_compute; reflexivity).
  split; [exact Hd |]. split; [lia |].
  destruct (processResponse_classifies client 404 (error_text 1305) _
              (world 200 "[]") Hd) as [_ H].
  apply (H ltac:(lia) 1305 (VStr "m")).
  exists (VDict [("code", VInt 1305); ("message", VStr "m")]).
  repeat split.
Defined.

(** C3, witness: status 400 with the body [{}]. *)
Lemma processResponse_malformed_witness :
  400 <= 400
  /\ BBT.__processResponse__ client (400, "{}") (world 200 "[]") =
     (Raise (Exn KeyError "%s" [VStr "error"]), world 200 "[]").
Proof.
  split; [lia |].
  destruct (processResponse_malformed client 400 "{}" (world 200 "[]")
              ltac:(lia)) as (_ & H & _).
  apply (H []); reflexivity.
Defined.

(** C8, witness: a service answering with one record. *)
Lemma recentVal_first_witness :
  respond (world 200 one_record_text) (sent (world 200 one_record_text))
          (Spec.recent_request handle (world 200 one_record_text)) =
    Return {| status_code := 200; text := one_record_text |}
  /\ 200 < 400
  /\ json_loads one_record_text =
     Some (VList [VDict [("data", VInt 21); ("ts", VInt 1500000000000)]])
  /\ fst (Resource.recentVal handle (world 200 one_record_text)) =
     Return (VDict [("data", VInt 21); ("ts", VInt 1500000000000)]).
Proof.
  assert (Hd : json_loads one_record_text =
               Some (VList [VDict [("data", VInt 21);
                                   ("ts", VInt 1500000000000)]]))
    by (vm_compute; reflexivity).
  split; [reflexivity |]. split; [lia |]. split; [exact Hd |].
  apply (recentVal_first handle 200 one_record_text _
           (world 200 one_record_text) eq_refl ltac:(lia) Hd).
Defined.

(** ** Witnesses for the properties of the remaining code *)

(** X2, witness: [read] with [sample_rate = 1]. *)
Lemma sample_rate_raises_NameError_witness :
  truthy (VInt 1) = true
  /\ BBT.read client "c" "r" None None None None (Some (VInt 1))
              (world 200 "[]") =
     (Raise (Exn NameError "name '%s' is not defined" [VStr "sample"]),
      world 200 "[]").
Proof.
  split; [reflexivity |].
  destruct (sample_rate_raises_NameError client "o" "c" "r" None None None
              None (VInt 1) (world 200 "[]") eq_refl) as [H _].
  exact H.
Defined.

(** X6, witness: status 200 with an HTML body. *)
Lemma undecodable_body_raises_ValueError_witness :
  json_loads "<html>" = None
  /\ exists e,
      BBT.__processResponse__ client (200, "<html>") (world 200 "[]") =
        (Raise e, world 200 "[]")
      /\ exn_kind e = ValueError.
Proof.
  assert (H : json_loads "<html>" = None) by (vm_compute; reflexivity).
  split; [exact H |].
  exact (undecodable_body_raises_ValueError client 200 "<html>"
           (world 200 "[]") H).
Defined.

(** X7, witness: status 500 with the body [{"error":"boom"}]. *)
Lemma unsubscriptable_body_raises_TypeError_witness :
  400 <= 500
  /\ json_loads Laws.error_string_text = Some (VDict [("error", VStr "boom")])
  /\ (exists err,
        getitem (VDict [("error", VStr "boom")]) "error" = Return err
        /\ Laws.is_object err = false)
  /\ exists e,
      BBT.__processResponse__ client (500, Laws.error_string_text)
                              (world 200 "[]") = (Raise e, world 200 "[]")
      /\ exn_kind e = BuiltinTypeError.
Proof.
  assert (Hd : json_loads Laws.error_string_text =
               Some (VDict [("error", VStr "boom")]))
    by (vm_compute; reflexivity).
  assert (He : exists err,
             getitem (VDict [("error", VStr "boom")]) "error" = Return err
             /\ Laws.is_object err = false)
    by (exists (VStr "boom"); split; reflexivity).
  split; [lia |]. split; [exact Hd |]. split; [exact He |].
  exact (unsubscriptable_body_raises_TypeError client 500
           Laws.error_string_text _ (world 200 "[]") ltac:(lia) Hd
           (or_intror He)).
Defined.

(** X8, witness: status 400 with the code sent as the string ["1101"]. *)
Lemma non_numeric_code_is_unexpected_witness :
  400 <= 400
  /\ json_loads Laws.string_code_text =
     Some (VDict [("error", VDict [("code", VStr "1101");
                                   ("message", VStr "m")])])
  /\ Laws.is_number (VStr "1101") = false
  /\ BBT.__processResponse__ client (400, Laws.string_code_text)
                            (world 200 "[]") =
     (Raise (Exn UnexpectedError "Status: %s; Code %s; Message: %s"
               [VInt 400; VStr "1101"; VStr "m"]), world 200 "[]").
Proof.
  assert (Hd : json_loads Laws.string_code_text =
               Some (VDict [("error", VDict [("code", VStr "1101");
                                             ("message", VStr "m")])]))
    by (vm_compute; reflexivity).
  split; [lia |]. split; [exact Hd |]. split; [reflexivity |].
  apply (non_numeric_code_is_unexpected client 400 Laws.string_code_text _
           (VStr "1101") (VStr "m") (world 200 "[]") ltac:(lia) Hd).
  - exists (VDict [("code", VStr "1101"); ("message", VStr "m")]).
    repeat split.
  - reflexivity.
Defined.

(** X10, witness: a write answered with 200 and one record. *)
Lemma operations_return_decoded_body_witness :
  (forall rq,
      respond (world 200 one_record_text)
              (sent (world 200 one_record_text)) rq =
      Return {| status_code := 200; text := one_record_text |})
  /\ 200 < 400
  /\ json_loads one_record_text =
     Some (VList [VDict [("data", VInt 21); ("ts", VInt 1500000000000)]])
  /\ fst (BBT.write client "c" "r" (VInt 1) None
            (world 200 one_record_text)) =
     Return (VList [VDict [("data", VInt 21); ("ts", VInt 1500000000000)]]).
Proof.
  assert (Hd : json_loads one_record_text =
               Some (VList [VDict [("data", VInt 21);
                                   ("ts", VInt 1500000000000)]]))
    by (vm_compute; reflexivity).
  split; [intro; reflexivity |]. split; [lia |]. split; [exact Hd |].
  destruct (operations_return_decoded_body client "o" "c" "r" (VInt 1) None
              None None None None 200 one_record_text _
              (world 200 one_record_text) (fun _ => eq_refl) ltac:(lia) Hd)
    as (_ & _ & H & _).
  exact H.
Defined.

(** X11, witness: a write answered with 404 and code 1305. *)
Lemma operations_raise_classified_error_witness :
  (forall rq,
      respond (world 404 (error_text 1305))
              (sent (world 404 (error_text 1305))) rq =
      Return {| status_code := 404; text := error_text 1305 |})
  /\ 400 <= 404
  /\ json_loads (error_text 1305) =
     Some (VDict [("error", VDict [("code", VInt 1305);
                                   ("message", VStr "m")])])
  /\ Laws.raises_kind
       (fst (BBT.write client "c" "r" (VInt 1) None
               (world 404 (error_text 1305))))
       Spec.KAlreadyExist.
Proof.
  assert (Hd : json_loads (error_text 1305) =
               Some (VDict [("error", VDict [("code", VInt 1305);
                                             ("message", VStr "m")])]))
    by (vm_compute; reflexivity).
  split; [intro; reflexivity |]. split; [lia |]. split; [exact Hd |].
  assert (Hb : Spec.error_body
                 (VDict [("error", VDict [("code", VInt 1305);
                                          ("message", VStr "m")])])
                 1305 (VStr "m")).
  { exists (VDict [("code", VInt 1305); ("message", VStr "m")]).
    repeat split. }
  destruct (operations_raise_classified_error client handle "o" "c" "r"
              (VInt 1) None None None None None 404 (error_text 1305) _
              1305 (VStr "m") (world 404 (error_text 1305))
              (fun _ => eq_refl) ltac:(lia) Hd Hb)
    as (_ & _ & H & _).
  exact H.
Defined.

(** X12, witness: a read while the service refuses connections. *)
Lemma transport_exception_propagates_witness :
  (forall rq,
      respond (Laws.down (Exn RequestException "connection refused" []))
              (sent (Laws.down (Exn RequestException "connection refused" [])))
              rq =
      Raise (Exn RequestException "connection refused" []))
  /\ fst (BBT.read client "c" "r" None None None None None
            (Laws.down (Exn RequestException "connection refused" []))) =
     Raise (Exn RequestException "connection refused" []).
Proof.
  split; [intro; reflexivity |].
  destruct (transport_exception_propagates client handle "o" "c" "r"
              (VInt 1) None None None None None
              (Exn RequestException "connection refused" [])
              (Laws.down (Exn RequestException "connection refused" []))
              (fun _ => eq_refl))
    as (_ & H & _).
  exact H.
Defined.

(** X13, witness: a handle's read for the owner [alice]. *)
Lemma Resource_read_owner_AttributeError_witness :
  "alice" <> EmptyString
  /\ Resource.read handle None (Some "alice") None None None None
                   (world 200 "[]") =
     (Attr.AttributeError "publicRead", world 200 "[]").
Proof.
  assert (H : "alice" <> EmptyString) by discriminate.
  split; [exact H |].
  exact (Resource_read_owner_AttributeError handle "alice" None None None
           None None (world 200 "[]") H).
Defined.

(** X16, witness: the service answers with one record, not in an array. *)
Lemma recentVal_not_an_array_witness :
  (forall rq,
      respond (world 200 Laws.record_text)
              (sent (world 200 Laws.record_text)) rq =
      Return {| status_code := 200; text := Laws.record_text |})
  /\ 200 < 400
  /\ json_loads Laws.record_text =
     Some (VDict [("data", VInt 21); ("ts", VInt 1500000000000)])
  /\ Laws.is_array (VDict [("data", VInt 21); ("ts", VInt 1500000000000)]) =
     false
  /\ fst (Resource.recentVal handle (world 200 Laws.record_text)) =
     Raise (Exn KeyError "%s" [VInt 0]).
Proof.
  assert (Hd : json_loads Laws.record_text =
               Some (VDict [("data", VInt 21); ("ts", VInt 1500000000000)]))
    by (vm_compute; reflexivity).
  split; [intro; reflexivity |]. split; [lia |]. split; [exact Hd |].
  split; [reflexivity |].
  exact (recentVal_not_an_array handle 200 Laws.record_text _
           (world 200 Laws.record_text) (fun _ => eq_refl) ltac:(lia) Hd
           eq_refl).
Defined.

(** X17, witness: a record with [ts] only. *)
Lemma fromJSON_missing_member_witness :
  (dict_get [("ts", VInt 5)] "data" = None
   \/ dict_get [("ts", VInt 5)] "ts" = None)
  /\ DataPoint.fromJSON (VDict [("ts", VInt 5)]) (world 200 "[]") =
     (Raise (Exn KeyError "%s" [VStr "data"]), world 200 "[]").
Proof.
  split; [left; reflexivity |].
  exact (fromJSON_missing_member [("ts", VInt 5)] (world 200 "[]")
           (or_introl eq_refl)).
Defined.

(** X18, witness: a record to which the channel is added. *)
Lemma fromJSON_ignores_other_members_witness :
  "channel" <> "data"
  /\ "channel" <> "ts"
  /\ DataPoint.fromJSON
       (VDict (dict_set [("data", VInt 21); ("ts", VInt 5)] "channel"
                        (VStr "c"))) (world 200 "[]") =
     DataPoint.fromJSON (VDict [("data", VInt 21); ("ts", VInt 5)])
                        (world 200 "[]").
Proof.
  assert (H1 : "channel" <> "data") by discriminate.
  assert (H2 : "channel" <> "ts") by discriminate.
  split; [exact H1 |]. split; [exact H2 |].
  exact (fromJSON_ignores_other_members [("data", VInt 21); ("ts", VInt 5)]
           "channel" (VStr "c") (world 200 "[]") H1 H2).
Defined.

(** X19, witness: a record that echoes its channel. *)
Lemma toJSON_fromJSON_witness :
  dict_get [("channel", VStr "c"); ("data", VInt 21); ("ts", VInt 5)] "data" =
    Some (VInt 21)
  /\ dict_get [("channel", VStr "c"); ("data", VInt 21); ("ts", VInt 5)] "ts" =
     Some (VInt 5)
  /\ bind (DataPoint.fromJSON
             (VDict [("channel", VStr "c"); ("data", VInt 21);
                     ("ts", VInt 5)]))
          (fun p => ret (DataPoint.toJSON p None)) (world 200 "[]") =
     (Return (VDict [("owner", VNone); ("channel", VNone);
                     ("resource", VNone); ("data", VInt 21);
                     ("ts", VInt 5)]), world 200 "[]").
Proof.
  split; [reflexivity |]. split; [reflexivity |].
  exact (toJSON_fromJSON
           [("channel", VStr "c"); ("data", VInt 21); ("ts", VInt 5)]
           (VInt 21) (VInt 5) None (world 200 "[]") eq_refl eq_refl).
Defined.

(** Indexing a string goes by character: the first character of ["état"]
    is its two-byte [é], and a one-character string has no index 1. *)
Example getindex_by_character :
  getindex (VStr "état") 0 = Return (VStr "é")
  /\ getindex (VStr "état") 1 = Return (VStr "t")
  /\ getindex (VStr "été") (-1) = Return (VStr "é")
  /\ getindex (VStr "é") 1 =
     Raise (Exn IndexError "string index out of range" []).
Proof. vm_compute. repeat split. Qed.

Example recentVal_accent :
  fst (Resource.recentVal handle (world 200 Laws.accent_text)) =
  Return (VStr "é").
Proof. vm_compute. reflexivity. Qed.

(** The reference [urlencode] on a query with a list value. *)
Example urlencode_list_value :
  Ref.urlencode [("limit", VInt 1); ("filter", VList [VInt 1; VStr "a b"])] =
  "limit=1&filter=%5B1%2C+%27a+b%27%5D".
Proof. vm_compute. reflexivity. Qed.
